(** * Supercharger profitability: financial model and market scorer

    A shallow embedding of [calculator.py], [calculator_enhanced.py] and
    [market_analysis.py], and the properties of these programs.

    Numbers.  Python [int] fields are [Z].  Python [float] values are
    modelled as exact rationals [Q] (the cost and revenue figures are
    "abstract decimals, no rounding until presentation"); equality of two
    amounts is [Qeq], written [==].  [float('inf')] is a constructor of its
    own, and a scalar division by zero raises [ZeroDivisionError] as in
    Python.  The rational model says what the formulas of the code compute
    in exact arithmetic; it keeps the guards, the order of the operations
    and the exceptions of the code, and leaves IEEE rounding out.

    Where a property depends on rounding, the session and charging-revenue
    methods are also given in module [Binary64], on Rocq's primitive
    binary64 floats, which round as Python's [float] does. *)

From Stdlib Require Import QArith Qfield Lqa ZArith List String Bool Lia.
From Stdlib Require Import PrimFloat Uint63.
From Stdlib Require Import Sorting.Sorted Permutation.
Import ListNotations.

Local Open Scope Q_scope.

#[local] Set Warnings "-inexact-float".

(** ** Python values and exceptions *)

Inductive exn : Type :=
| ZeroDivisionError.

Inductive result (A : Type) : Type :=
| Ok (a : A)
| Raise (e : exn).

Arguments Ok {A} a.
Arguments Raise {A} e.

Definition bind {A B : Type} (r : result A) (k : A -> result B) : result B :=
  match r with
  | Ok a => k a
  | Raise e => Raise e
  end.

Notation "x <- r ;; k" := (bind r (fun x => k))
  (at level 61, r at next level, right associativity).

(** [returns r P]: the call [r] returns normally, with a value satisfying [P]. *)
Definition returns {A : Type} (r : result A) (P : A -> Prop) : Prop :=
  match r with
  | Ok a => P a
  | Raise _ => False
  end.

(** A Python float that may be [float('inf')]. *)
Inductive pyfloat : Type :=
| Fin (q : Q)
| Inf.

Definition is_finite (x : pyfloat) : bool :=
  match x with
  | Fin _ => true
  | Inf => false
  end.

(** [a > b] and [a <= b] on floats. *)
Definition Qgtb (a b : Q) : bool := negb (Qle_bool a b).
Definition Qleb (a b : Q) : bool := Qle_bool a b.

(** [a / b] on Python scalars. *)
Definition py_div (a b : Q) : result Q :=
  if Qeq_bool b 0 then Raise ZeroDivisionError else Ok (a / b).

(** ** calculator_enhanced.py: the cost groups *)

Module InstallationCosts.
Record t : Type := mk {
  site_preparation : Q;
  electrical_infrastructure : Q;
  concrete_construction : Q;
  labor_costs : Q;
  permitting_inspections : Q;
  environmental_compliance : Q;
  contingency : Q
}.

Definition default : t := {|
  site_preparation := 50000;
  electrical_infrastructure := 150000;
  concrete_construction := 40000;
  labor_costs := 80000;
  permitting_inspections := 25000;
  environmental_compliance := 15000;
  contingency := 25000
|}.

Definition total (self : t) : Q :=
  site_preparation self +
  electrical_infrastructure self +
  concrete_construction self +
  labor_costs self +
  permitting_inspections self +
  environmental_compliance self +
  contingency self.
End InstallationCosts.

Module EquipmentCosts.
Record t : Type := mk {
  num_stalls : Z;
  charger_unit_cost : Q;
  transformer_cost : Q;
  switchgear_cost : Q;
  cabling_materials : Q;
  canopy_shelter : Q;
  signage_lighting : Q;
  payment_systems : Q;
  monitoring_systems : Q
}.

Definition default : t := {|
  num_stalls := 8;
  charger_unit_cost := 30000;
  transformer_cost := 45000;
  switchgear_cost := 35000;
  cabling_materials := 25000;
  canopy_shelter := 80000;
  signage_lighting := 15000;
  payment_systems := 12000;
  monitoring_systems := 18000
|}.

Definition total (self : t) : Q :=
  (charger_unit_cost self * inject_Z (num_stalls self)) +
  transformer_cost self +
  switchgear_cost self +
  cabling_materials self +
  canopy_shelter self +
  signage_lighting self +
  payment_systems self +
  monitoring_systems self.

(** The fields other than the per-stall charger cost and the stall count. *)
Definition fixed_parts (self : t) : list Q :=
  [ transformer_cost self; switchgear_cost self; cabling_materials self;
    canopy_shelter self; signage_lighting self; payment_systems self;
    monitoring_systems self ].
End EquipmentCosts.

Module LicensingLegalCosts.
Record t : Type := mk {
  business_licenses : Q;
  environmental_permits : Q;
  legal_fees : Q;
  insurance_setup : Q;
  trademark_branding : Q
}.

Definition default : t := {|
  business_licenses := 5000;
  environmental_permits := 8000;
  legal_fees := 12000;
  insurance_setup := 3000;
  trademark_branding := 5000
|}.

Definition total (self : t) : Q :=
  business_licenses self +
  environmental_permits self +
  legal_fees self +
  insurance_setup self +
  trademark_branding self.
End LicensingLegalCosts.

Module AnnualOperatingCosts.
Record t : Type := mk {
  land_lease_rent : Q;
  property_taxes : Q;
  business_taxes : Q;
  insurance_annual : Q;
  maintenance_contract : Q;
  cleaning_upkeep : Q;
  security_monitoring : Q;
  network_connectivity : Q;
  software_management_fees : Q;
  utilities_non_charging : Q;
  repairs_reserve : Q
}.

Definition default : t := {|
  land_lease_rent := 36000;
  property_taxes := 12000;
  business_taxes := 8000;
  insurance_annual := 15000;
  maintenance_contract := 20000;
  cleaning_upkeep := 8000;
  security_monitoring := 6000;
  network_connectivity := 3600;
  software_management_fees := 12000;
  utilities_non_charging := 4000;
  repairs_reserve := 10000
|}.

Definition total_fixed (self : t) : Q :=
  land_lease_rent self +
  property_taxes self +
  business_taxes self +
  insurance_annual self +
  maintenance_contract self +
  cleaning_upkeep self +
  security_monitoring self +
  network_connectivity self +
  software_management_fees self +
  utilities_non_charging self +
  repairs_reserve self.
End AnnualOperatingCosts.

Module RevenueParameters.
Record t : Type := mk {
  num_stalls : Z;
  peak_price : Q;
  standard_price : Q;
  off_peak_price : Q;
  peak_usage_percent : Q;
  standard_usage_percent : Q;
  off_peak_usage_percent : Q;
  avg_kwh_per_session : Q;
  sessions_per_stall_per_day : Q;
  utilization_rate : Q;
  idle_fee_per_minute : Q;
  avg_idle_minutes_per_session : Q;
  idle_fee_occurrence_rate : Q;
  membership_monthly_fee : Q;
  percent_members : Q;
  member_discount_per_kwh : Q;
  summer_multiplier : Q;
  winter_multiplier : Q;
  spring_fall_multiplier : Q;
  electricity_rate_peak : Q;
  electricity_rate_standard : Q;
  electricity_rate_off_peak : Q;
  weekday_multiplier : Q;
  weekend_multiplier : Q
}.

Definition default : t := {|
  num_stalls := 8;
  peak_price := 0.42;
  standard_price := 0.35;
  off_peak_price := 0.28;
  peak_usage_percent := 0.25;
  standard_usage_percent := 0.60;
  off_peak_usage_percent := 0.15;
  avg_kwh_per_session := 50;
  sessions_per_stall_per_day := 6;
  utilization_rate := 0.70;
  idle_fee_per_minute := 0.50;
  avg_idle_minutes_per_session := 5;
  idle_fee_occurrence_rate := 0.30;
  membership_monthly_fee := 9.99;
  percent_members := 0.15;
  member_discount_per_kwh := 0.05;
  summer_multiplier := 1.15;
  winter_multiplier := 0.95;
  spring_fall_multiplier := 1.00;
  electricity_rate_peak := 0.18;
  electricity_rate_standard := 0.14;
  electricity_rate_off_peak := 0.10;
  weekday_multiplier := 1.05;
  weekend_multiplier := 0.95
|}.
End RevenueParameters.

(** ** calculator_enhanced.py: the result dictionaries, one record per dict *)

Module InitialInvestment.
Record t : Type := mk {
  installation : Q;
  equipment : Q;
  licensing_legal : Q;
  total : Q
}.
End InitialInvestment.

Module Sessions.
Record t : Type := mk {
  weekday_sessions : Q;
  weekend_sessions : Q;
  total_sessions : Q;
  peak_sessions : Q;
  standard_sessions : Q;
  off_peak_sessions : Q
}.
End Sessions.

Module ChargingRevenue.
Record t : Type := mk {
  peak_revenue : Q;
  standard_revenue : Q;
  off_peak_revenue : Q;
  total_charging_revenue : Q;
  peak_kwh : Q;
  standard_kwh : Q;
  off_peak_kwh : Q;
  total_kwh : Q
}.
End ChargingRevenue.

(** The local variables of [calculate_charging_revenue] at its [return]. *)
Module ChargingLocals.
Record t : Type := mk {
  sessions : Sessions.t;
  peak_kwh : Q;
  standard_kwh : Q;
  off_peak_kwh : Q;
  member_adjustment : Q;
  peak_revenue : Q;
  standard_revenue : Q;
  off_peak_revenue : Q;
  seasonal_avg : Q
}.
End ChargingLocals.

Module AdditionalRevenue.
Record t : Type := mk {
  idle_fee_revenue : Q;
  membership_revenue : Q;
  total_additional_revenue : Q
}.
End AdditionalRevenue.

Module AnnualRevenue.
Record t : Type := mk {
  charging_revenue : Q;
  idle_fees : Q;
  memberships : Q;
  total_revenue : Q
}.
End AnnualRevenue.

Module ElectricityCosts.
Record t : Type := mk {
  peak_electricity_cost : Q;
  standard_electricity_cost : Q;
  off_peak_electricity_cost : Q;
  total_electricity_cost : Q
}.
End ElectricityCosts.

Module AnnualCosts.
Record t : Type := mk {
  electricity_costs : Q;
  fixed_operating_costs : Q;
  total_annual_costs : Q
}.
End AnnualCosts.

Module RoiMetrics.
Record t : Type := mk {
  roi_percentage : Q;
  payback_period_years : pyfloat;
  year_5_cumulative_profit : Q;
  year_10_cumulative_profit : Q
}.
End RoiMetrics.

(** ** calculator_enhanced.py: EnhancedSuperchargerCalculator *)

Module EnhancedSuperchargerCalculator.
Module RP := RevenueParameters.

Record t : Type := mk {
  installation : InstallationCosts.t;
  equipment : EquipmentCosts.t;
  licensing : LicensingLegalCosts.t;
  operating : AnnualOperatingCosts.t;
  revenue : RevenueParameters.t
}.

(** [x or D()]: an argument left at [None] takes the default object. *)
Definition or_default {A : Type} (x : option A) (d : A) : A :=
  match x with
  | Some a => a
  | None => d
  end.

Definition init
    (installation : option InstallationCosts.t)
    (equipment : option EquipmentCosts.t)
    (licensing : option LicensingLegalCosts.t)
    (operating : option AnnualOperatingCosts.t)
    (revenue : option RevenueParameters.t) : t :=
  {| installation := or_default installation InstallationCosts.default;
     equipment := or_default equipment EquipmentCosts.default;
     licensing := or_default licensing LicensingLegalCosts.default;
     operating := or_default operating AnnualOperatingCosts.default;
     revenue := or_default revenue RevenueParameters.default |}.

Definition calculate_total_initial_investment (self : t) : InitialInvestment.t :=
  {| InitialInvestment.installation := InstallationCosts.total (installation self);
     InitialInvestment.equipment := EquipmentCosts.total (equipment self);
     InitialInvestment.licensing_legal := LicensingLegalCosts.total (licensing self);
     InitialInvestment.total :=
       InstallationCosts.total (installation self) +
       EquipmentCosts.total (equipment self) +
       LicensingLegalCosts.total (licensing self) |}.

(** The local [total_sessions] of [calculate_annual_sessions]. *)
Definition baseline_sessions (self : t) : Q :=
  inject_Z (RP.num_stalls (revenue self)) *
  RP.sessions_per_stall_per_day (revenue self) *
  365 *
  RP.utilization_rate (revenue self).

Definition calculate_annual_sessions (self : t) : Sessions.t :=
  let total_sessions := baseline_sessions self in
  let weekday_sessions := total_sessions * (5/7) * RP.weekday_multiplier (revenue self) in
  let weekend_sessions := total_sessions * (2/7) * RP.weekend_multiplier (revenue self) in
  let adjusted_total := weekday_sessions + weekend_sessions in
  {| Sessions.weekday_sessions := weekday_sessions;
     Sessions.weekend_sessions := weekend_sessions;
     Sessions.total_sessions := adjusted_total;
     Sessions.peak_sessions := adjusted_total * RP.peak_usage_percent (revenue self);
     Sessions.standard_sessions := adjusted_total * RP.standard_usage_percent (revenue self);
     Sessions.off_peak_sessions := adjusted_total * RP.off_peak_usage_percent (revenue self) |}.

(** The body of [calculate_charging_revenue] down to its [return]. *)
Definition charging_revenue_locals (self : t) : result ChargingLocals.t :=
  let sessions := calculate_annual_sessions self in
  let peak_kwh := Sessions.peak_sessions sessions * RP.avg_kwh_per_session (revenue self) in
  let standard_kwh := Sessions.standard_sessions sessions * RP.avg_kwh_per_session (revenue self) in
  let off_peak_kwh := Sessions.off_peak_sessions sessions * RP.avg_kwh_per_session (revenue self) in
  discount_ratio <- py_div (RP.member_discount_per_kwh (revenue self))
                           (RP.standard_price (revenue self)) ;;
  let member_adjustment := 1 - (RP.percent_members (revenue self) * discount_ratio) in
  let peak_revenue := peak_kwh * RP.peak_price (revenue self) * member_adjustment in
  let standard_revenue := standard_kwh * RP.standard_price (revenue self) * member_adjustment in
  let off_peak_revenue := off_peak_kwh * RP.off_peak_price (revenue self) * member_adjustment in
  let seasonal_avg :=
    RP.summer_multiplier (revenue self) * 0.25 +
    RP.winter_multiplier (revenue self) * 0.25 +
    RP.spring_fall_multiplier (revenue self) * 0.50 in
  Ok {| ChargingLocals.sessions := sessions;
        ChargingLocals.peak_kwh := peak_kwh;
        ChargingLocals.standard_kwh := standard_kwh;
        ChargingLocals.off_peak_kwh := off_peak_kwh;
        ChargingLocals.member_adjustment := member_adjustment;
        ChargingLocals.peak_revenue := peak_revenue;
        ChargingLocals.standard_revenue := standard_revenue;
        ChargingLocals.off_peak_revenue := off_peak_revenue;
        ChargingLocals.seasonal_avg := seasonal_avg |}.

(** The [return] of [calculate_charging_revenue]. *)
Definition charging_revenue_return (l : ChargingLocals.t) : ChargingRevenue.t :=
  {| ChargingRevenue.peak_revenue :=
       ChargingLocals.peak_revenue l * ChargingLocals.seasonal_avg l;
     ChargingRevenue.standard_revenue :=
       ChargingLocals.standard_revenue l * ChargingLocals.seasonal_avg l;
     ChargingRevenue.off_peak_revenue :=
       ChargingLocals.off_peak_revenue l * ChargingLocals.seasonal_avg l;
     ChargingRevenue.total_charging_revenue :=
       (ChargingLocals.peak_revenue l + ChargingLocals.standard_revenue l +
        ChargingLocals.off_peak_revenue l) * ChargingLocals.seasonal_avg l;
     ChargingRevenue.peak_kwh := ChargingLocals.peak_kwh l;
     ChargingRevenue.standard_kwh := ChargingLocals.standard_kwh l;
     ChargingRevenue.off_peak_kwh := ChargingLocals.off_peak_kwh l;
     ChargingRevenue.total_kwh :=
       ChargingLocals.peak_kwh l + ChargingLocals.standard_kwh l +
       ChargingLocals.off_peak_kwh l |}.

Definition calculate_charging_revenue (self : t) : result ChargingRevenue.t :=
  l <- charging_revenue_locals self ;;
  Ok (charging_revenue_return l).

Definition calculate_additional_revenue (self : t) : AdditionalRevenue.t :=
  let sessions := calculate_annual_sessions self in
  let idle_sessions :=
    Sessions.total_sessions sessions * RP.idle_fee_occurrence_rate (revenue self) in
  let idle_revenue :=
    idle_sessions *
    RP.avg_idle_minutes_per_session (revenue self) *
    RP.idle_fee_per_minute (revenue self) in
  let avg_sessions_per_customer_monthly := 4 in
  let unique_customers :=
    (Sessions.total_sessions sessions / 12) / avg_sessions_per_customer_monthly in
  let members := unique_customers * RP.percent_members (revenue self) in
  let membership_revenue := members * RP.membership_monthly_fee (revenue self) * 12 in
  {| AdditionalRevenue.idle_fee_revenue := idle_revenue;
     AdditionalRevenue.membership_revenue := membership_revenue;
     AdditionalRevenue.total_additional_revenue := idle_revenue + membership_revenue |}.

Definition calculate_total_annual_revenue (self : t) : result AnnualRevenue.t :=
  charging_rev <- calculate_charging_revenue self ;;
  let additional_rev := calculate_additional_revenue self in
  Ok {| AnnualRevenue.charging_revenue := ChargingRevenue.total_charging_revenue charging_rev;
        AnnualRevenue.idle_fees := AdditionalRevenue.idle_fee_revenue additional_rev;
        AnnualRevenue.memberships := AdditionalRevenue.membership_revenue additional_rev;
        AnnualRevenue.total_revenue :=
          ChargingRevenue.total_charging_revenue charging_rev +
          AdditionalRevenue.total_additional_revenue additional_rev |}.

Definition calculate_electricity_costs (self : t) : result ElectricityCosts.t :=
  charging_data <- calculate_charging_revenue self ;;
  let peak_cost := ChargingRevenue.peak_kwh charging_data * RP.electricity_rate_peak (revenue self) in
  let standard_cost :=
    ChargingRevenue.standard_kwh charging_data * RP.electricity_rate_standard (revenue self) in
  let off_peak_cost :=
    ChargingRevenue.off_peak_kwh charging_data * RP.electricity_rate_off_peak (revenue self) in
  Ok {| ElectricityCosts.peak_electricity_cost := peak_cost;
        ElectricityCosts.standard_electricity_cost := standard_cost;
        ElectricityCosts.off_peak_electricity_cost := off_peak_cost;
        ElectricityCosts.total_electricity_cost := peak_cost + standard_cost + off_peak_cost |}.

Definition calculate_total_annual_costs (self : t) : result AnnualCosts.t :=
  electricity <- calculate_electricity_costs self ;;
  let fixed_costs := AnnualOperatingCosts.total_fixed (operating self) in
  Ok {| AnnualCosts.electricity_costs := ElectricityCosts.total_electricity_cost electricity;
        AnnualCosts.fixed_operating_costs := fixed_costs;
        AnnualCosts.total_annual_costs :=
          ElectricityCosts.total_electricity_cost electricity + fixed_costs |}.

Definition calculate_annual_profit (self : t) : result Q :=
  revenue <- calculate_total_annual_revenue self ;;
  costs <- calculate_total_annual_costs self ;;
  Ok (AnnualRevenue.total_revenue revenue - AnnualCosts.total_annual_costs costs).

(** Both divisions are behind a guard that makes the divisor positive,
    so neither can raise. *)
Definition calculate_roi_metrics (self : t) : result RoiMetrics.t :=
  let initial_investment :=
    InitialInvestment.total (calculate_total_initial_investment self) in
  annual_profit <- calculate_annual_profit self ;;
  let roi :=
    if Qgtb initial_investment 0
    then annual_profit / initial_investment * 100
    else 0 in
  let payback :=
    if Qgtb annual_profit 0
    then Fin (initial_investment / annual_profit)
    else Inf in
  let year_5_total := (annual_profit * 5) - initial_investment in
  let year_10_total := (annual_profit * 10) - initial_investment in
  Ok {| RoiMetrics.roi_percentage := roi;
        RoiMetrics.payback_period_years := payback;
        RoiMetrics.year_5_cumulative_profit := year_5_total;
        RoiMetrics.year_10_cumulative_profit := year_10_total |}.
End EnhancedSuperchargerCalculator.

(** ** calculator.py: SuperchargerProfitabilityCalculator *)

Module SuperchargerProfitabilityCalculator.
Record t : Type := mk {
  num_stalls : Z;
  equipment_cost_per_stall : Q;
  installation_cost : Q;
  permitting_fees : Q;
  land_lease_annual : Q;
  electricity_rate_kwh : Q;
  maintenance_annual : Q;
  charging_price_kwh : Q;
  avg_kwh_per_session : Q;
  sessions_per_stall_per_day : Q;
  utilization_rate : Q
}.

Definition default : t := {|
  num_stalls := 8;
  equipment_cost_per_stall := 35000;
  installation_cost := 100000;
  permitting_fees := 25000;
  land_lease_annual := 24000;
  electricity_rate_kwh := 0.15;
  maintenance_annual := 15000;
  charging_price_kwh := 0.35;
  avg_kwh_per_session := 50;
  sessions_per_stall_per_day := 5;
  utilization_rate := 0.70
|}.

Definition calculate_initial_investment (self : t) : Q :=
  let equipment_total := inject_Z (num_stalls self) * equipment_cost_per_stall self in
  equipment_total + installation_cost self + permitting_fees self.

Definition sessions_per_year (self : t) : Q :=
  inject_Z (num_stalls self) *
  sessions_per_stall_per_day self *
  365 *
  utilization_rate self.

Definition calculate_annual_revenue (self : t) : Q :=
  let kwh_per_year := sessions_per_year self * avg_kwh_per_session self in
  kwh_per_year * charging_price_kwh self.

Definition calculate_annual_electricity_cost (self : t) : Q :=
  let kwh_per_year := sessions_per_year self * avg_kwh_per_session self in
  kwh_per_year * electricity_rate_kwh self.

Definition calculate_annual_operating_costs (self : t) : Q :=
  let electricity_cost := calculate_annual_electricity_cost self in
  electricity_cost + land_lease_annual self + maintenance_annual self.

Definition calculate_annual_profit (self : t) : Q :=
  let revenue := calculate_annual_revenue self in
  let costs := calculate_annual_operating_costs self in
  revenue - costs.

(** The division sits behind [initial_investment == 0], so it cannot raise. *)
Definition calculate_roi (self : t) : Q :=
  let initial_investment := calculate_initial_investment self in
  let annual_profit := calculate_annual_profit self in
  if Qeq_bool initial_investment 0 then 0
  else (annual_profit / initial_investment) * 100.

(** The division sits behind [annual_profit <= 0], so it cannot raise. *)
Definition calculate_payback_period (self : t) : pyfloat :=
  let initial_investment := calculate_initial_investment self in
  let annual_profit := calculate_annual_profit self in
  if Qleb annual_profit 0 then Inf
  else Fin (initial_investment / annual_profit).

End SuperchargerProfitabilityCalculator.

(** ** calculator_enhanced.py on binary64 floats

    [calculate_annual_sessions] and [calculate_charging_revenue] once more,
    with Python's [float] as it is: an IEEE 754 binary64 number, every
    operation rounded to nearest even.  Both methods read [self.revenue]
    only, so they take the revenue parameters.  [x == y] on two floats is
    [PrimFloat.eqb x y]. *)

Module Binary64.

(** [float(n)] for an [int] operand of a float operation (|n| < 2^63).
    [num_stalls] is an [int]; the other fields are floats, also where the
    default is written as an [int] literal (50, 6, 5): the products of such
    values are the same in [int] and in binary64 while they stay below
    2^53. *)
Definition of_int (n : Z) : float :=
  match n with
  | Z0 => 0%float
  | Zpos _ => PrimFloat.of_uint63 (Uint63.of_Z n)
  | Zneg p => (- PrimFloat.of_uint63 (Uint63.of_Z (Zpos p)))%float
  end.

(** [a / b] on Python floats: a zero divisor (0.0 or -0.0) raises. *)
Definition py_div (a b : float) : result float :=
  if PrimFloat.eqb b 0%float then Raise ZeroDivisionError else Ok (a / b)%float.

Module RevenueParameters.
Record t : Type := mk {
  num_stalls : Z;
  peak_price : float;
  standard_price : float;
  off_peak_price : float;
  peak_usage_percent : float;
  standard_usage_percent : float;
  off_peak_usage_percent : float;
  avg_kwh_per_session : float;
  sessions_per_stall_per_day : float;
  utilization_rate : float;
  idle_fee_per_minute : float;
  avg_idle_minutes_per_session : float;
  idle_fee_occurrence_rate : float;
  membership_monthly_fee : float;
  percent_members : float;
  member_discount_per_kwh : float;
  summer_multiplier : float;
  winter_multiplier : float;
  spring_fall_multiplier : float;
  electricity_rate_peak : float;
  electricity_rate_standard : float;
  electricity_rate_off_peak : float;
  weekday_multiplier : float;
  weekend_multiplier : float
}.

(** [RevenueParameters(num_stalls=..., peak_usage_percent=...,
    standard_usage_percent=..., off_peak_usage_percent=...,
    sessions_per_stall_per_day=...)], the other fields at their defaults. *)
Definition defaults_with (num_stalls : Z)
    (peak_usage_percent standard_usage_percent off_peak_usage_percent : float)
    (sessions_per_stall_per_day : float) : t := {|
  num_stalls := num_stalls;
  peak_price := 0.42;
  standard_price := 0.35;
  off_peak_price := 0.28;
  peak_usage_percent := peak_usage_percent;
  standard_usage_percent := standard_usage_percent;
  off_peak_usage_percent := off_peak_usage_percent;
  avg_kwh_per_session := 50;
  sessions_per_stall_per_day := sessions_per_stall_per_day;
  utilization_rate := 0.70;
  idle_fee_per_minute := 0.50;
  avg_idle_minutes_per_session := 5;
  idle_fee_occurrence_rate := 0.30;
  membership_monthly_fee := 9.99;
  percent_members := 0.15;
  member_discount_per_kwh := 0.05;
  summer_multiplier := 1.15;
  winter_multiplier := 0.95;
  spring_fall_multiplier := 1.00;
  electricity_rate_peak := 0.18;
  electricity_rate_standard := 0.14;
  electricity_rate_off_peak := 0.10;
  weekday_multiplier := 1.05;
  weekend_multiplier := 0.95
|}%float.

(** [RevenueParameters()] *)
Definition default : t := defaults_with 8 0.25%float 0.60%float 0.15%float 6%float.
End RevenueParameters.

Module Sessions.
Record t : Type := mk {
  weekday_sessions : float;
  weekend_sessions : float;
  total_sessions : float;
  peak_sessions : float;
  standard_sessions : float;
  off_peak_sessions : float
}.
End Sessions.

Module ChargingRevenue.
Record t : Type := mk {
  peak_revenue : float;
  standard_revenue : float;
  off_peak_revenue : float;
  total_charging_revenue : float;
  peak_kwh : float;
  standard_kwh : float;
  off_peak_kwh : float;
  total_kwh : float
}.
End ChargingRevenue.

Definition calculate_annual_sessions (revenue : RevenueParameters.t) : Sessions.t :=
  let total_sessions :=
    (of_int (RevenueParameters.num_stalls revenue) *
     RevenueParameters.sessions_per_stall_per_day revenue *
     365 *
     RevenueParameters.utilization_rate revenue)%float in
  let weekday_sessions :=
    (total_sessions * (5 / 7) * RevenueParameters.weekday_multiplier revenue)%float in
  let weekend_sessions :=
    (total_sessions * (2 / 7) * RevenueParameters.weekend_multiplier revenue)%float in
  let adjusted_total := (weekday_sessions + weekend_sessions)%float in
  {| Sessions.weekday_sessions := weekday_sessions;
     Sessions.weekend_sessions := weekend_sessions;
     Sessions.total_sessions := adjusted_total;
     Sessions.peak_sessions :=
       (adjusted_total * RevenueParameters.peak_usage_percent revenue)%float;
     Sessions.standard_sessions :=
       (adjusted_total * RevenueParameters.standard_usage_percent revenue)%float;
     Sessions.off_peak_sessions :=
       (adjusted_total * RevenueParameters.off_peak_usage_percent revenue)%float |}.

Definition calculate_charging_revenue (revenue : RevenueParameters.t)
    : result ChargingRevenue.t :=
  let sessions := calculate_annual_sessions revenue in
  let peak_kwh :=
    (Sessions.peak_sessions sessions * RevenueParameters.avg_kwh_per_session revenue)%float in
  let standard_kwh :=
    (Sessions.standard_sessions sessions *
     RevenueParameters.avg_kwh_per_session revenue)%float in
  let off_peak_kwh :=
    (Sessions.off_peak_sessions sessions *
     RevenueParameters.avg_kwh_per_session revenue)%float in
  discount_ratio <- py_div (RevenueParameters.member_discount_per_kwh revenue)
                           (RevenueParameters.standard_price revenue) ;;
  let member_adjustment :=
    (1 - (RevenueParameters.percent_members revenue * discount_ratio))%float in
  let peak_revenue :=
    (peak_kwh * RevenueParameters.peak_price revenue * member_adjustment)%float in
  let standard_revenue :=
    (standard_kwh * RevenueParameters.standard_price revenue * member_adjustment)%float in
  let off_peak_revenue :=
    (off_peak_kwh * RevenueParameters.off_peak_price revenue * member_adjustment)%float in
  let seasonal_avg :=
    (RevenueParameters.summer_multiplier revenue * 0.25 +
     RevenueParameters.winter_multiplier revenue * 0.25 +
     RevenueParameters.spring_fall_multiplier revenue * 0.50)%float in
  Ok {| ChargingRevenue.peak_revenue := (peak_revenue * seasonal_avg)%float;
        ChargingRevenue.standard_revenue := (standard_revenue * seasonal_avg)%float;
        ChargingRevenue.off_peak_revenue := (off_peak_revenue * seasonal_avg)%float;
        ChargingRevenue.total_charging_revenue :=
          ((peak_revenue + standard_revenue + off_peak_revenue) * seasonal_avg)%float;
        ChargingRevenue.peak_kwh := peak_kwh;
        ChargingRevenue.standard_kwh := standard_kwh;
        ChargingRevenue.off_peak_kwh := off_peak_kwh;
        ChargingRevenue.total_kwh := (peak_kwh + standard_kwh + off_peak_kwh)%float |}.
End Binary64.

(** ** market_analysis.py: the static dataset *)

Local Open Scope string_scope.

(** Name, State, Lat, Lon, Population, Existing_Chargers *)
Definition US_METRO_AREAS : list (string * string * Q * Q * Z * Z) := [
    ("New York", "NY", (40.7128)%Q, (-74.0060)%Q, 8336817%Z, 45%Z);
    ("Los Angeles", "CA", (34.0522)%Q, (-118.2437)%Q, 3898747%Z, 52%Z);
    ("Chicago", "IL", (41.8781)%Q, (-87.6298)%Q, 2746388%Z, 28%Z);
    ("Houston", "TX", (29.7604)%Q, (-95.3698)%Q, 2304580%Z, 25%Z);
    ("Phoenix", "AZ", (33.4484)%Q, (-112.0740)%Q, 1608139%Z, 18%Z);
    ("Philadelphia", "PA", (39.9526)%Q, (-75.1652)%Q, 1603797%Z, 15%Z);
    ("San Antonio", "TX", (29.4241)%Q, (-98.4936)%Q, 1434625%Z, 12%Z);
    ("San Diego", "CA", (32.7157)%Q, (-117.1611)%Q, 1386932%Z, 22%Z);
    ("Dallas", "TX", (32.7767)%Q, (-96.7970)%Q, 1304379%Z, 24%Z);
    ("San Jose", "CA", (37.3382)%Q, (-121.8863)%Q, 1013240%Z, 28%Z);
    ("Austin", "TX", (30.2672)%Q, (-97.7431)%Q, 961855%Z, 16%Z);
    ("Jacksonville", "FL", (30.3322)%Q, (-81.6557)%Q, 949611%Z, 8%Z);
    ("Fort Worth", "TX", (32.7555)%Q, (-97.3308)%Q, 918915%Z, 10%Z);
    ("Columbus", "OH", (39.9612)%Q, (-82.9988)%Q, 905748%Z, 9%Z);
    ("Charlotte", "NC", (35.2271)%Q, (-80.8431)%Q, 897720%Z, 11%Z);
    ("San Francisco", "CA", (37.7749)%Q, (-122.4194)%Q, 873965%Z, 35%Z);
    ("Indianapolis", "IN", (39.7684)%Q, (-86.1581)%Q, 887642%Z, 8%Z);
    ("Seattle", "WA", (47.6062)%Q, (-122.3321)%Q, 749256%Z, 30%Z);
    ("Denver", "CO", (39.7392)%Q, (-104.9903)%Q, 715522%Z, 20%Z);
    ("Washington", "DC", (38.9072)%Q, (-77.0369)%Q, 712816%Z, 25%Z);
    ("Boston", "MA", (42.3601)%Q, (-71.0589)%Q, 675647%Z, 22%Z);
    ("Nashville", "TN", (36.1627)%Q, (-86.7816)%Q, 689447%Z, 10%Z);
    ("Detroit", "MI", (42.3314)%Q, (-83.0458)%Q, 639111%Z, 12%Z);
    ("Oklahoma City", "OK", (35.4676)%Q, (-97.5164)%Q, 687725%Z, 7%Z);
    ("Portland", "OR", (45.5152)%Q, (-122.6784)%Q, 652503%Z, 18%Z);
    ("Las Vegas", "NV", (36.1699)%Q, (-115.1398)%Q, 656274%Z, 15%Z);
    ("Memphis", "TN", (35.1495)%Q, (-90.0490)%Q, 633104%Z, 6%Z);
    ("Louisville", "KY", (38.2527)%Q, (-85.7585)%Q, 633045%Z, 5%Z);
    ("Baltimore", "MD", (39.2904)%Q, (-76.6122)%Q, 585708%Z, 10%Z);
    ("Milwaukee", "WI", (43.0389)%Q, (-87.9065)%Q, 577222%Z, 8%Z);
    ("Albuquerque", "NM", (35.0844)%Q, (-106.6504)%Q, 564559%Z, 9%Z);
    ("Tucson", "AZ", (32.2226)%Q, (-110.9747)%Q, 548073%Z, 8%Z);
    ("Fresno", "CA", (36.7378)%Q, (-119.7871)%Q, 542107%Z, 6%Z);
    ("Sacramento", "CA", (38.5816)%Q, (-121.4944)%Q, 524943%Z, 14%Z);
    ("Kansas City", "MO", (39.0997)%Q, (-94.5786)%Q, 508090%Z, 9%Z);
    ("Atlanta", "GA", (33.7490)%Q, (-84.3880)%Q, 498715%Z, 20%Z);
    ("Miami", "FL", (25.7617)%Q, (-80.1918)%Q, 449514%Z, 18%Z);
    ("Raleigh", "NC", (35.7796)%Q, (-78.6382)%Q, 474069%Z, 8%Z);
    ("Omaha", "NE", (41.2565)%Q, (-95.9345)%Q, 486051%Z, 5%Z);
    ("Colorado Springs", "CO", (38.8339)%Q, (-104.8214)%Q, 478961%Z, 7%Z);
    ("Minneapolis", "MN", (44.9778)%Q, (-93.2650)%Q, 425403%Z, 15%Z);
    ("Tampa", "FL", (27.9506)%Q, (-82.4572)%Q, 398173%Z, 12%Z);
    ("Orlando", "FL", (28.5383)%Q, (-81.3792)%Q, 307573%Z, 14%Z);
    ("Cleveland", "OH", (41.4993)%Q, (-81.6944)%Q, 372624%Z, 7%Z);
    ("Boise", "ID", (43.6150)%Q, (-116.2023)%Q, 235684%Z, 6%Z);
    ("Salt Lake City", "UT", (40.7608)%Q, (-111.8910)%Q, 200567%Z, 12%Z);
    ("Buffalo", "NY", (42.8864)%Q, (-78.8784)%Q, 276807%Z, 5%Z);
    ("Pittsburgh", "PA", (40.4406)%Q, (-79.9959)%Q, 302971%Z, 8%Z);
    ("Cincinnati", "OH", (39.1031)%Q, (-84.5120)%Q, 309317%Z, 7%Z);
    ("Anchorage", "AK", (61.2181)%Q, (-149.9003)%Q, 291247%Z, 3%Z);
    ("St. Louis", "MO", (38.6270)%Q, (-90.1994)%Q, 301578%Z, 10%Z);
    ("Madison", "WI", (43.0731)%Q, (-89.4012)%Q, 269840%Z, 5%Z);
    ("Des Moines", "IA", (41.6005)%Q, (-93.6091)%Q, 214133%Z, 4%Z);
    ("Richmond", "VA", (37.5407)%Q, (-77.4360)%Q, 230436%Z, 6%Z);
    ("Charleston", "SC", (32.7765)%Q, (-79.9311)%Q, 150227%Z, 4%Z);
    ("Birmingham", "AL", (33.5186)%Q, (-86.8104)%Q, 200733%Z, 5%Z);
    ("New Orleans", "LA", (29.9511)%Q, (-90.0715)%Q, 383997%Z, 6%Z);
    ("Little Rock", "AR", (34.7465)%Q, (-92.2896)%Q, 202591%Z, 3%Z);
    ("Spokane", "WA", (47.6588)%Q, (-117.4260)%Q, 228989%Z, 5%Z);
    ("Fargo", "ND", (46.8772)%Q, (-96.7898)%Q, 125990%Z, 2%Z);
    ("Sioux Falls", "SD", (43.5460)%Q, (-96.7313)%Q, 192517%Z, 3%Z)
  ].

(** ** The pandas operations the analyzer uses

    A DataFrame is kept row-wise: one record per row, carrying its index
    label.  A column operation of pandas is a [map] over the rows. *)

Section Pandas.
Context {A : Type}.

(** Stable insertion sort; [leb x y] says that [x] may stand before [y].
    An element is put in front of the first one it may stand before, so
    among equal keys the earlier row stays first. *)
Fixpoint insert_by (leb : A -> A -> bool) (x : A) (l : list A) : list A :=
  match l with
  | [] => [x]
  | y :: l' => if leb x y then x :: y :: l' else y :: insert_by leb x l'
  end.

Fixpoint sort_by (leb : A -> A -> bool) (l : list A) : list A :=
  match l with
  | [] => []
  | x :: l' => insert_by leb x (sort_by leb l')
  end.

(** [DataFrame.nlargest(n, column)] with the default [keep='first']: the
    first [n] rows in descending order of the column, the first
    occurrences winning among equal values; no row when [n <= 0]. *)
Definition nlargest (n : Z) (column : A -> Q) (rows : list A) : list A :=
  if (n <=? 0)%Z then []
  else firstn (Z.to_nat n)
              (sort_by (fun x y => Qle_bool (column y) (column x)) rows).

(** [DataFrame.nsmallest(n, column)], likewise in ascending order. *)
Definition nsmallest (n : Z) (column : A -> Q) (rows : list A) : list A :=
  if (n <=? 0)%Z then []
  else firstn (Z.to_nat n)
              (sort_by (fun x y => Qle_bool (column x) (column y)) rows).

(** [DataFrame.sort_values(column, ascending=False)]. *)
Definition sort_values_desc (column : A -> Q) (rows : list A) : list A :=
  sort_by (fun x y => Qle_bool (column y) (column x)) rows.
End Pandas.

(** [Series.sum()] on an integer and on a float column. *)
Definition series_sum_Z (s : list Z) : Z := fold_right Z.add 0%Z s.
Definition series_sum_Q (s : list Q) : Q := fold_right Qplus 0 s.

(** [Series.max()] on an integer column (of a frame that has a row). *)
Definition series_max_Z (s : list Z) : Z := fold_right Z.max (hd 0%Z s) s.

(** [Series.mean()] and [Series.median()] on a float column (of a frame
    that has a row). *)
Definition series_mean (s : list Q) : Q :=
  series_sum_Q s / inject_Z (Z.of_nat (List.length s)).

Definition series_median (s : list Q) : Q :=
  let sorted := sort_by Qle_bool s in
  let n := List.length s in
  if Nat.even n
  then (nth (n / 2 - 1) sorted 0 + nth (n / 2) sorted 0) / 2
  else nth (n / 2) sorted 0.

(** ** market_analysis.py: MarketAnalyzer *)

(** A row of the frame [_create_dataframe] builds. *)
Module RawRow.
Record t : Type := mk {
  label : nat;
  city : string;
  state : string;
  lat : Q;
  lon : Q;
  population : Z;
  chargers : Z
}.
End RawRow.

(** A row of [self.df] once [_calculate_metrics] has added its columns. *)
Module Row.
Record t : Type := mk {
  label : nat;
  city : string;
  state : string;
  lat : Q;
  lon : Q;
  population : Z;
  chargers : Z;
  people_per_charger : Q;
  chargers_per_100k : Q;
  market_size_score : Q;
  coverage_gap : Q;
  opportunity_score : Q
}.
End Row.

(** [self.df]: the rows, and the column ['region'] once it has been set. *)
Module DataFrame.
Record t : Type := mk {
  rows : list Row.t;
  region : option (list string)
}.
End DataFrame.

(** The eight columns [get_top_opportunities] and [get_underserved_markets]
    select, with the index label. *)
Module OpportunityRow.
Record t : Type := mk {
  label : nat;
  city : string;
  state : string;
  population : Z;
  chargers : Z;
  people_per_charger : Q;
  chargers_per_100k : Q;
  coverage_gap : Q;
  opportunity_score : Q
}.
End OpportunityRow.

(** The seven columns [get_oversaturated_markets] selects. *)
Module DensityRow.
Record t : Type := mk {
  label : nat;
  city : string;
  state : string;
  population : Z;
  chargers : Z;
  people_per_charger : Q;
  chargers_per_100k : Q;
  coverage_gap : Q
}.
End DensityRow.

Module NationalStats.
Record t : Type := mk {
  total_population : Z;
  total_chargers : Z;
  avg_chargers_per_100k : Q;
  avg_people_per_charger : Q;
  median_people_per_charger : Q;
  cities_analyzed : nat
}.
End NationalStats.

(** A row of the frame [get_regional_analysis] returns, indexed by region. *)
Module RegionalRow.
Record t : Type := mk {
  region : string;
  population : Z;
  chargers : Z;
  cities : nat;
  chargers_per_100k : Q;
  people_per_charger : Q
}.
End RegionalRow.

(** State passing for the methods of an object: a method takes [self] and
    gives its result with the object as it leaves it. *)
Definition State (S A : Type) : Type := S -> A * S.

Definition sret {S A : Type} (a : A) : State S A := fun s => (a, s).

Definition sbind {S A B : Type} (m : State S A) (k : A -> State S B) : State S B :=
  fun s => let (a, s') := m s in k a s'.

Definition sget {S : Type} : State S S := fun s => (s, s).

Definition sput {S : Type} (s' : S) : State S unit := fun _ => (tt, s').

Notation "x <~ m ;; k" := (sbind m (fun x => k))
  (at level 61, m at next level, right associativity).

(** [a < b] on floats. *)
Definition Qltb (a b : Q) : bool := negb (Qle_bool b a).

Module MarketAnalyzer.
Record t : Type := mk {
  df : DataFrame.t
}.

(** Rows get the default index labels 0, 1, 2, ... *)
Definition _create_dataframe : list RawRow.t :=
  map (fun '(i, (city, state, lat, lon, population, chargers)) =>
         {| RawRow.label := i;
            RawRow.city := city;
            RawRow.state := state;
            RawRow.lat := lat;
            RawRow.lon := lon;
            RawRow.population := population;
            RawRow.chargers := chargers |})
      (combine (seq 0 (List.length US_METRO_AREAS)) US_METRO_AREAS).

(** The national average density, [avg_chargers_per_100k]. *)
Definition national_avg_density (population chargers : list Z) : Q :=
  (inject_Z (series_sum_Z chargers) / inject_Z (series_sum_Z population)) * 100000.

(** Column arithmetic follows numpy, where a zero divisor gives an
    infinity and no exception; the frame of the analyzer has no zero
    divisor (lemma [metrics_divisors_nonzero] below), so every quotient
    here is the rational one. *)
Definition _calculate_metrics (raw : list RawRow.t) : DataFrame.t :=
  let people_per_charger (r : RawRow.t) :=
    inject_Z (RawRow.population r) / inject_Z (RawRow.chargers r) in
  let chargers_per_100k (r : RawRow.t) :=
    (inject_Z (RawRow.chargers r) / inject_Z (RawRow.population r)) * 100000 in
  let market_size_score (r : RawRow.t) :=
    inject_Z (RawRow.population r) /
    inject_Z (series_max_Z (map RawRow.population raw)) * 100 in
  let avg_chargers_per_100k :=
    national_avg_density (map RawRow.population raw) (map RawRow.chargers raw) in
  let coverage_gap (r : RawRow.t) := chargers_per_100k r - avg_chargers_per_100k in
  let opportunity_score (r : RawRow.t) :=
    ((market_size_score r / 100) *
     (1 / (chargers_per_100k r / avg_chargers_per_100k))) * 100 in
  {| DataFrame.rows :=
       map (fun r =>
              {| Row.label := RawRow.label r;
                 Row.city := RawRow.city r;
                 Row.state := RawRow.state r;
                 Row.lat := RawRow.lat r;
                 Row.lon := RawRow.lon r;
                 Row.population := RawRow.population r;
                 Row.chargers := RawRow.chargers r;
                 Row.people_per_charger := people_per_charger r;
                 Row.chargers_per_100k := chargers_per_100k r;
                 Row.market_size_score := market_size_score r;
                 Row.coverage_gap := coverage_gap r;
                 Row.opportunity_score := opportunity_score r |})
           raw;
     DataFrame.region := None |}.

(** [MarketAnalyzer()] *)
Definition init : t := {| df := _calculate_metrics _create_dataframe |}.

Definition get_market_data : State t DataFrame.t :=
  self <~ sget ;;
  sret (df self).

Definition opportunity_columns (r : Row.t) : OpportunityRow.t :=
  {| OpportunityRow.label := Row.label r;
     OpportunityRow.city := Row.city r;
     OpportunityRow.state := Row.state r;
     OpportunityRow.population := Row.population r;
     OpportunityRow.chargers := Row.chargers r;
     OpportunityRow.people_per_charger := Row.people_per_charger r;
     OpportunityRow.chargers_per_100k := Row.chargers_per_100k r;
     OpportunityRow.coverage_gap := Row.coverage_gap r;
     OpportunityRow.opportunity_score := Row.opportunity_score r |}.

Definition density_columns (r : Row.t) : DensityRow.t :=
  {| DensityRow.label := Row.label r;
     DensityRow.city := Row.city r;
     DensityRow.state := Row.state r;
     DensityRow.population := Row.population r;
     DensityRow.chargers := Row.chargers r;
     DensityRow.people_per_charger := Row.people_per_charger r;
     DensityRow.chargers_per_100k := Row.chargers_per_100k r;
     DensityRow.coverage_gap := Row.coverage_gap r |}.

Definition get_top_opportunities (n : Z) : State t (list OpportunityRow.t) :=
  self <~ sget ;;
  sret (map opportunity_columns
            (nlargest n Row.opportunity_score (DataFrame.rows (df self)))).

Definition get_oversaturated_markets (n : Z) : State t (list DensityRow.t) :=
  self <~ sget ;;
  sret (map density_columns
            (nlargest n Row.chargers_per_100k (DataFrame.rows (df self)))).

Definition get_underserved_markets (n : Z) : State t (list OpportunityRow.t) :=
  self <~ sget ;;
  sret (map opportunity_columns
            (nsmallest n Row.chargers_per_100k (DataFrame.rows (df self)))).

Definition get_national_stats : State t NationalStats.t :=
  self <~ sget ;;
  let rows := DataFrame.rows (df self) in
  sret {| NationalStats.total_population := series_sum_Z (map Row.population rows);
          NationalStats.total_chargers := series_sum_Z (map Row.chargers rows);
          NationalStats.avg_chargers_per_100k :=
            national_avg_density (map Row.population rows) (map Row.chargers rows);
          NationalStats.avg_people_per_charger :=
            series_mean (map Row.people_per_charger rows);
          NationalStats.median_people_per_charger :=
            series_median (map Row.people_per_charger rows);
          NationalStats.cities_analyzed := List.length rows |}.

(** The rows [self.df[(city == ...) & (state == ...)]] keeps. *)
Definition market_of (city state : string) (rows : list Row.t) : list Row.t :=
  filter (fun r => String.eqb (Row.city r) city && String.eqb (Row.state r) state) rows.

Definition classify_gap (gap : Q) : string :=
  if Qltb gap (-0.5) then "Underserved (High Opportunity)"
  else if Qgtb gap 0.5 then "Oversaturated"
  else "Balanced".

Definition classify_market (city state : string) : State t string :=
  self <~ sget ;;
  let market := market_of city state (DataFrame.rows (df self)) in
  sret match market with
       | [] => "Unknown"
       | first :: _ => classify_gap (Row.coverage_gap first)
       end.

Definition regions : list (string * list string) :=
  [ ("Northeast", ["NY"; "PA"; "MA"; "MD"; "DC"]);
    ("Southeast", ["FL"; "GA"; "NC"; "SC"; "TN"; "KY"; "LA"; "AL"]);
    ("Midwest", ["IL"; "OH"; "MI"; "WI"; "MN"; "MO"; "IN"; "IA"; "ND"; "SD"; "NE"; "KS"]);
    ("Southwest", ["TX"; "AZ"; "NM"; "OK"; "AR"]);
    ("West", ["CA"; "WA"; "OR"; "NV"; "CO"; "UT"; "ID"; "AK"]) ].

Fixpoint get_region_in (items : list (string * list string)) (state : string) : string :=
  match items with
  | [] => "Other"
  | (region, states) :: items' =>
      if existsb (String.eqb state) states then region
      else get_region_in items' state
  end.

Definition get_region (state : string) : string := get_region_in regions state.

(** [groupby('region')]: the distinct keys, in sorted order. *)
Definition group_keys (column : list string) : list string :=
  sort_by String.leb (nodup string_dec column).

(** [.agg({'population': 'sum', 'chargers': 'sum', 'city': 'count'})] on
    the group of one key, then the two derived columns. *)
Definition aggregate_region (keyed : list (string * Row.t)) (key : string) : RegionalRow.t :=
  let group := map snd (filter (fun kr => String.eqb (fst kr) key) keyed) in
  let population := series_sum_Z (map Row.population group) in
  let chargers := series_sum_Z (map Row.chargers group) in
  {| RegionalRow.region := key;
     RegionalRow.population := population;
     RegionalRow.chargers := chargers;
     RegionalRow.cities := List.length group;
     RegionalRow.chargers_per_100k := (inject_Z chargers / inject_Z population) * 100000;
     RegionalRow.people_per_charger := inject_Z population / inject_Z chargers |}.

(** [self.df['region'] = ...] sets the column on the stored frame. *)
Definition set_region (column : list string) : State t unit :=
  self <~ sget ;;
  sput {| df := {| DataFrame.rows := DataFrame.rows (df self);
                   DataFrame.region := Some column |} |}.

Definition get_regional_analysis : State t (list RegionalRow.t) :=
  self <~ sget ;;
  let region := map (fun r => get_region (Row.state r)) (DataFrame.rows (df self)) in
  _ <~ set_region region ;;
  self <~ sget ;;
  let keyed := combine region (DataFrame.rows (df self)) in
  let regional := map (aggregate_region keyed) (group_keys region) in
  sret (sort_values_desc RegionalRow.chargers_per_100k regional).
End MarketAnalyzer.

(** ** Reports and recommendations *)


(** The dictionary [generate_comprehensive_report] returns. *)
Module ComprehensiveReport.
Record t : Type := mk {
  initial_investment : InitialInvestment.t;
  annual_revenue : AnnualRevenue.t;
  annual_costs : AnnualCosts.t;
  annual_profit : Q;
  electricity_breakdown : ElectricityCosts.t;
  charging_revenue_detail : ChargingRevenue.t;
  additional_revenue : AdditionalRevenue.t;
  roi_metrics : RoiMetrics.t;
  sessions_breakdown : Sessions.t
}.
End ComprehensiveReport.

Module EnhancedReport.
Import EnhancedSuperchargerCalculator.

(** The values of the dictionary are computed in the order they are written. *)
Definition generate_comprehensive_report (self : t) : result ComprehensiveReport.t :=
  let initial_investment := calculate_total_initial_investment self in
  annual_revenue <- calculate_total_annual_revenue self ;;
  annual_costs <- calculate_total_annual_costs self ;;
  annual_profit <- calculate_annual_profit self ;;
  electricity_breakdown <- calculate_electricity_costs self ;;
  charging_revenue_detail <- calculate_charging_revenue self ;;
  let additional_revenue := calculate_additional_revenue self in
  roi_metrics <- calculate_roi_metrics self ;;
  let sessions_breakdown := calculate_annual_sessions self in
  Ok {| ComprehensiveReport.initial_investment := initial_investment;
        ComprehensiveReport.annual_revenue := annual_revenue;
        ComprehensiveReport.annual_costs := annual_costs;
        ComprehensiveReport.annual_profit := annual_profit;
        ComprehensiveReport.electricity_breakdown := electricity_breakdown;
        ComprehensiveReport.charging_revenue_detail := charging_revenue_detail;
        ComprehensiveReport.additional_revenue := additional_revenue;
        ComprehensiveReport.roi_metrics := roi_metrics;
        ComprehensiveReport.sessions_breakdown := sessions_breakdown |}.
End EnhancedReport.

(** The dictionary [generate_report] of the basic calculator returns. *)
Module BasicReport.
Record t : Type := mk {
  initial_investment : Q;
  annual_revenue : Q;
  annual_electricity_cost : Q;
  annual_operating_costs : Q;
  annual_profit : Q;
  roi_percentage : Q;
  payback_period_years : pyfloat;
  five_year_profit : Q
}.


End BasicReport.

(** ** Orders used to state the ranking properties *)

(** [before key label a b]: row [a] has to come before row [b] in a stable
    descending order on [key]: a larger key, or an equal key and a smaller
    index label. *)
Definition before {A : Type} (key : A -> Q) (label : A -> nat) (a b : A) : Prop :=
  key b < key a \/ (key a == key b /\ (label a < label b)%nat).

(** ** Configurations used as examples *)

(** [EnhancedSuperchargerCalculator()], every group at its defaults. *)
Definition default_calculator : EnhancedSuperchargerCalculator.t :=
  EnhancedSuperchargerCalculator.init None None None None None.

(** The defaults, but [InstallationCosts(site_preparation=-2000000)]: the
    total initial investment is -1,162,000 and the annual profit is positive. *)
Definition negative_investment_calculator : EnhancedSuperchargerCalculator.t :=
  EnhancedSuperchargerCalculator.init
    (Some {| InstallationCosts.site_preparation := -2000000;
             InstallationCosts.electrical_infrastructure := 150000;
             InstallationCosts.concrete_construction := 40000;
             InstallationCosts.labor_costs := 80000;
             InstallationCosts.permitting_inspections := 25000;
             InstallationCosts.environmental_compliance := 15000;
             InstallationCosts.contingency := 25000 |})
    None None None None.


(** [RevenueParameters(num_stalls=12, sessions_per_stall_per_day=5)] *)
Definition twelve_stalls : Binary64.RevenueParameters.t :=
  Binary64.RevenueParameters.defaults_with 12 0.25%float 0.60%float 0.15%float 5%float.

(** [RevenueParameters(num_stalls=19, sessions_per_stall_per_day=5,
    peak_usage_percent=0.15, standard_usage_percent=0.70,
    off_peak_usage_percent=0.15)] *)
Definition nineteen_stalls : Binary64.RevenueParameters.t :=
  Binary64.RevenueParameters.defaults_with 19 0.15%float 0.70%float 0.15%float 5%float.



(** * Properties *)

Local Close Scope string_scope.

(** ** Comparisons on floats *)

Lemma Qgtb_true (a b : Q) : Qgtb a b = true <-> b < a.
Proof.
  unfold Qgtb. rewrite negb_true_iff, <- not_true_iff_false, Qle_bool_iff.
  split; [apply Qnot_le_lt | apply Qlt_not_le].
Qed.

Lemma Qgtb_false (a b : Q) : Qgtb a b = false <-> a <= b.
Proof.
  unfold Qgtb. rewrite negb_false_iff. apply Qle_bool_iff.
Qed.

Lemma Qltb_true (a b : Q) : Qltb a b = true <-> a < b.
Proof. apply (Qgtb_true b a). Qed.

Lemma Qltb_false (a b : Q) : Qltb a b = false <-> b <= a.
Proof. apply (Qgtb_false b a). Qed.

Lemma Qleb_true (a b : Q) : Qleb a b = true <-> a <= b.
Proof. apply Qle_bool_iff. Qed.

Lemma Qleb_false (a b : Q) : Qleb a b = false <-> b < a.
Proof.
  unfold Qleb. rewrite <- not_true_iff_false, Qle_bool_iff.
  split; [apply Qnot_le_lt | apply Qlt_not_le].
Qed.

Lemma Qeq_bool_false (a b : Q) : Qeq_bool a b = false <-> ~ a == b.
Proof.
  rewrite <- not_true_iff_false, Qeq_bool_iff. reflexivity.
Qed.

(** ** Which calls raise *)

Lemma py_div_ok (a b : Q) : ~ b == 0 -> py_div a b = Ok (a / b).
Proof.
  intros Hb. unfold py_div.
  apply Qeq_bool_false in Hb. now rewrite Hb.
Qed.

Lemma py_div_raises (a b : Q) : b == 0 -> py_div a b = Raise ZeroDivisionError.
Proof.
  intros Hb. unfold py_div.
  apply Qeq_bool_iff in Hb. now rewrite Hb.
Qed.

Lemma returns_weaken {A : Type} (r : result A) (P R : A -> Prop) :
  (forall a, P a -> R a) -> returns r P -> returns r R.
Proof. destruct r; simpl; auto. Qed.

Module EnhancedFacts.
Import EnhancedSuperchargerCalculator.

(** The discount ratio is the only division by a configured amount on the
    way to the charging revenue: the call returns exactly when the
    standard price is not zero. *)
Lemma charging_revenue_locals_ok (self : t) :
  ~ RP.standard_price (revenue self) == 0 ->
  exists l, charging_revenue_locals self = Ok l.
Proof.
  intros Hsp. unfold charging_revenue_locals.
  rewrite (py_div_ok _ _ Hsp). simpl. eauto.
Qed.

Lemma charging_revenue_raises (self : t) :
  RP.standard_price (revenue self) == 0 ->
  calculate_charging_revenue self = Raise ZeroDivisionError.
Proof.
  intros Hsp. unfold calculate_charging_revenue, charging_revenue_locals.
  now rewrite (py_div_raises _ _ Hsp).
Qed.

Lemma calculate_charging_revenue_ok (self : t) :
  ~ RP.standard_price (revenue self) == 0 ->
  exists r, calculate_charging_revenue self = Ok r.
Proof.
  intros Hsp. destruct (charging_revenue_locals_ok self Hsp) as [l Hl].
  unfold calculate_charging_revenue. rewrite Hl. simpl. eauto.
Qed.

Lemma calculate_annual_profit_ok (self : t) :
  ~ RP.standard_price (revenue self) == 0 ->
  exists p, calculate_annual_profit self = Ok p.
Proof.
  intros Hsp. destruct (calculate_charging_revenue_ok self Hsp) as [r Hr].
  unfold calculate_annual_profit, calculate_total_annual_revenue,
    calculate_total_annual_costs, calculate_electricity_costs.
  rewrite Hr. simpl. eauto.
Qed.

Lemma calculate_annual_profit_raises (self : t) :
  RP.standard_price (revenue self) == 0 ->
  calculate_annual_profit self = Raise ZeroDivisionError.
Proof.
  intros Hsp.
  unfold calculate_annual_profit, calculate_total_annual_revenue.
  now rewrite (charging_revenue_raises self Hsp).
Qed.

(** What [calculate_roi_metrics] returns, given the annual profit. *)
Lemma calculate_roi_metrics_eq (self : t) (p : Q) :
  calculate_annual_profit self = Ok p ->
  let inv := InitialInvestment.total (calculate_total_initial_investment self) in
  calculate_roi_metrics self =
    Ok {| RoiMetrics.roi_percentage := if Qgtb inv 0 then p / inv * 100 else 0;
          RoiMetrics.payback_period_years := if Qgtb p 0 then Fin (inv / p) else Inf;
          RoiMetrics.year_5_cumulative_profit := p * 5 - inv;
          RoiMetrics.year_10_cumulative_profit := p * 10 - inv |}.
Proof.
  intros Hp. unfold calculate_roi_metrics. rewrite Hp. reflexivity.
Qed.
End EnhancedFacts.

(** ** The cost model *)

(** C1, as the code has it.  With every cost field at its declared default
    (8 stalls, 30,000 per stall), the installation group totals 385,000 (not
    410,000), the licensing group 33,000, the equipment group
    charger_unit_cost * num_stalls plus its fixed part fields, which is
    470,000, and the total initial investment is the sum of the three group
    totals, 888,000.  The two structural equations hold for every
    configuration. *)
Theorem default_initial_investment :
  let inv := EnhancedSuperchargerCalculator.calculate_total_initial_investment
               default_calculator in
  InitialInvestment.installation inv == 385000 /\
  InitialInvestment.licensing_legal inv == 33000 /\
  InitialInvestment.equipment inv == 30000 * 8 + (45000 + 35000 + 25000 + 80000 + 15000 + 12000 + 18000) /\
  InitialInvestment.equipment inv == 470000 /\
  InitialInvestment.total inv == 888000 /\
  (forall e : EquipmentCosts.t,
     EquipmentCosts.total e ==
       EquipmentCosts.charger_unit_cost e * inject_Z (EquipmentCosts.num_stalls e) +
       series_sum_Q (EquipmentCosts.fixed_parts e)) /\
  (forall c' : EnhancedSuperchargerCalculator.t,
     let inv' := EnhancedSuperchargerCalculator.calculate_total_initial_investment c' in
     InitialInvestment.installation inv' =
       InstallationCosts.total (EnhancedSuperchargerCalculator.installation c') /\
     InitialInvestment.equipment inv' =
       EquipmentCosts.total (EnhancedSuperchargerCalculator.equipment c') /\
     InitialInvestment.licensing_legal inv' =
       LicensingLegalCosts.total (EnhancedSuperchargerCalculator.licensing c') /\
     InitialInvestment.total inv' ==
       InitialInvestment.installation inv' + InitialInvestment.equipment inv' +
       InitialInvestment.licensing_legal inv').
Proof.
  repeat split; try (vm_compute; reflexivity).
  intros e. unfold EquipmentCosts.total, EquipmentCosts.fixed_parts, series_sum_Q.
  simpl. ring.
Qed.

(** C1 as stated fails: the installation total of the defaults is not 410,000. *)
Lemma default_installation_total_not_410000 :
  ~ InstallationCosts.total InstallationCosts.default == 410000.
Proof.
  intros H. vm_compute in H. discriminate H.
Qed.

(** ** The revenue model *)

Lemma shares_distribute (a p s o : Q) :
  p + s + o == 1 -> a * p + a * s + a * o == a.
Proof.
  intros H.
  setoid_replace (a * p + a * s + a * o) with (a * (p + s + o)) by ring.
  rewrite H. ring.
Qed.

(** C4, as the code has it.  The peak, standard and off-peak session counts
    are the adjusted total times the respective usage share, the adjusted
    total being baseline * (5/7) * weekday_multiplier + baseline * (2/7) *
    weekend_multiplier with baseline = stalls * sessions_per_stall_per_day *
    365 * utilization_rate, each operation rounded as the code rounds it.
    In the binary64 arithmetic of the code the three counts sum to the
    adjusted total at the default configuration; for usage shares that sum
    to 1 they sum to it whenever the formulas are evaluated in exact
    arithmetic, which the rounded results need not do. *)
Theorem session_tiers_sum_to_adjusted_total :
  (forall revenue : Binary64.RevenueParameters.t,
     let s := Binary64.calculate_annual_sessions revenue in
     let baseline :=
       (Binary64.of_int (Binary64.RevenueParameters.num_stalls revenue) *
        Binary64.RevenueParameters.sessions_per_stall_per_day revenue * 365 *
        Binary64.RevenueParameters.utilization_rate revenue)%float in
     Binary64.Sessions.total_sessions s =
       (baseline * (5 / 7) * Binary64.RevenueParameters.weekday_multiplier revenue +
        baseline * (2 / 7) * Binary64.RevenueParameters.weekend_multiplier revenue)%float /\
     Binary64.Sessions.peak_sessions s =
       (Binary64.Sessions.total_sessions s *
        Binary64.RevenueParameters.peak_usage_percent revenue)%float /\
     Binary64.Sessions.standard_sessions s =
       (Binary64.Sessions.total_sessions s *
        Binary64.RevenueParameters.standard_usage_percent revenue)%float /\
     Binary64.Sessions.off_peak_sessions s =
       (Binary64.Sessions.total_sessions s *
        Binary64.RevenueParameters.off_peak_usage_percent revenue)%float) /\
  (let s := Binary64.calculate_annual_sessions Binary64.RevenueParameters.default in
   PrimFloat.eqb
     (Binary64.Sessions.peak_sessions s + Binary64.Sessions.standard_sessions s +
      Binary64.Sessions.off_peak_sessions s)%float
     (Binary64.Sessions.total_sessions s) = true) /\
  (forall self : EnhancedSuperchargerCalculator.t,
     let rp := EnhancedSuperchargerCalculator.revenue self in
     RevenueParameters.peak_usage_percent rp +
     RevenueParameters.standard_usage_percent rp +
     RevenueParameters.off_peak_usage_percent rp == 1 ->
     let s := EnhancedSuperchargerCalculator.calculate_annual_sessions self in
     let baseline :=
       inject_Z (RevenueParameters.num_stalls rp) *
       RevenueParameters.sessions_per_stall_per_day rp * 365 *
       RevenueParameters.utilization_rate rp in
     Sessions.peak_sessions s + Sessions.standard_sessions s + Sessions.off_peak_sessions s
       == Sessions.total_sessions s /\
     Sessions.total_sessions s ==
       baseline * (5/7) * RevenueParameters.weekday_multiplier rp +
       baseline * (2/7) * RevenueParameters.weekend_multiplier rp /\
     Sessions.peak_sessions s ==
       Sessions.total_sessions s * RevenueParameters.peak_usage_percent rp /\
     Sessions.standard_sessions s ==
       Sessions.total_sessions s * RevenueParameters.standard_usage_percent rp /\
     Sessions.off_peak_sessions s ==
       Sessions.total_sessions s * RevenueParameters.off_peak_usage_percent rp).
Proof.
  split; [|split].
  - intros revenue. cbv zeta. repeat split.
  - vm_compute. reflexivity.
  - intros self rp Hshares s baseline.
    split; [apply shares_distribute; exact Hshares|].
    repeat split; reflexivity.
Qed.

Lemma session_tiers_sum_to_adjusted_total_witness :
  let s := EnhancedSuperchargerCalculator.calculate_annual_sessions default_calculator in
  Sessions.peak_sessions s + Sessions.standard_sessions s + Sessions.off_peak_sessions s
    == Sessions.total_sessions s.
Proof.
  apply (proj2 (proj2 session_tiers_sum_to_adjusted_total) default_calculator).
  vm_compute. reflexivity.
Defined.

(** C4 as stated fails on the code's floats.  With 19 stalls, 5 sessions a
    day and shares 0.15, 0.70, 0.15, which sum to exactly 1.0, the three
    session counts do not sum to the adjusted total, in whichever order they
    are added; with 12 stalls, 5 sessions a day and the default shares
    [peak + standard + off_peak] misses the total too. *)
Lemma session_tiers_binary64_sum_misses_total :
  (let revenue := nineteen_stalls in
   let s := Binary64.calculate_annual_sessions revenue in
   let peak := Binary64.Sessions.peak_sessions s in
   let standard := Binary64.Sessions.standard_sessions s in
   let off_peak := Binary64.Sessions.off_peak_sessions s in
   PrimFloat.eqb
     (Binary64.RevenueParameters.peak_usage_percent revenue +
      Binary64.RevenueParameters.standard_usage_percent revenue +
      Binary64.RevenueParameters.off_peak_usage_percent revenue)%float 1%float = true /\
   PrimFloat.eqb (peak + standard + off_peak)%float (Binary64.Sessions.total_sessions s)
     = false /\
   PrimFloat.eqb (peak + (standard + off_peak))%float (Binary64.Sessions.total_sessions s)
     = false /\
   PrimFloat.eqb (peak + off_peak + standard)%float (Binary64.Sessions.total_sessions s)
     = false) /\
  (let revenue := twelve_stalls in
   let s := Binary64.calculate_annual_sessions revenue in
   PrimFloat.eqb
     (Binary64.RevenueParameters.peak_usage_percent revenue +
      Binary64.RevenueParameters.standard_usage_percent revenue +
      Binary64.RevenueParameters.off_peak_usage_percent revenue)%float 1%float = true /\
   PrimFloat.eqb
     (Binary64.Sessions.peak_sessions s + Binary64.Sessions.standard_sessions s +
      Binary64.Sessions.off_peak_sessions s)%float
     (Binary64.Sessions.total_sessions s) = false).
Proof.
  vm_compute. repeat split.
Qed.

(** C5.  Each tier's charging revenue is that tier's delivered kWh times
    that tier's price times one member-adjustment scalar, computed once as
    1 - member_fraction * (member_discount / standard_price) and used for
    the peak, the standard and the off-peak tier alike; the discount is
    always divided by the standard price.  These are the tier revenues
    before seasonal scaling: each tier revenue in the record
    calculate_charging_revenue returns is this product times the seasonal
    average 0.25 * summer + 0.25 * winter + 0.50 * spring_fall, and the
    tier's kWh is its session count times avg_kwh_per_session.  The same
    holds, operation by operation, of the binary64 results. *)
Theorem tier_revenue_uses_one_member_adjustment :
  (forall self : EnhancedSuperchargerCalculator.t,
     let rp := EnhancedSuperchargerCalculator.revenue self in
     let s := EnhancedSuperchargerCalculator.calculate_annual_sessions self in
     ~ RevenueParameters.standard_price rp == 0 ->
     let member_adjustment :=
       1 - RevenueParameters.percent_members rp *
           (RevenueParameters.member_discount_per_kwh rp /
            RevenueParameters.standard_price rp) in
     let seasonal_avg :=
       RevenueParameters.summer_multiplier rp * 0.25 +
       RevenueParameters.winter_multiplier rp * 0.25 +
       RevenueParameters.spring_fall_multiplier rp * 0.50 in
     returns (EnhancedSuperchargerCalculator.calculate_charging_revenue self) (fun r =>
       ChargingRevenue.peak_kwh r ==
         Sessions.peak_sessions s * RevenueParameters.avg_kwh_per_session rp /\
       ChargingRevenue.standard_kwh r ==
         Sessions.standard_sessions s * RevenueParameters.avg_kwh_per_session rp /\
       ChargingRevenue.off_peak_kwh r ==
         Sessions.off_peak_sessions s * RevenueParameters.avg_kwh_per_session rp /\
       ChargingRevenue.peak_revenue r ==
         ChargingRevenue.peak_kwh r * RevenueParameters.peak_price rp *
         member_adjustment * seasonal_avg /\
       ChargingRevenue.standard_revenue r ==
         ChargingRevenue.standard_kwh r * RevenueParameters.standard_price rp *
         member_adjustment * seasonal_avg /\
       ChargingRevenue.off_peak_revenue r ==
         ChargingRevenue.off_peak_kwh r * RevenueParameters.off_peak_price rp *
         member_adjustment * seasonal_avg) /\
     returns (EnhancedSuperchargerCalculator.charging_revenue_locals self) (fun l =>
       ChargingLocals.member_adjustment l == member_adjustment /\
       ChargingLocals.seasonal_avg l == seasonal_avg /\
       ChargingLocals.peak_kwh l ==
         Sessions.peak_sessions s * RevenueParameters.avg_kwh_per_session rp /\
       ChargingLocals.standard_kwh l ==
         Sessions.standard_sessions s * RevenueParameters.avg_kwh_per_session rp /\
       ChargingLocals.off_peak_kwh l ==
         Sessions.off_peak_sessions s * RevenueParameters.avg_kwh_per_session rp /\
       ChargingLocals.peak_revenue l ==
         ChargingLocals.peak_kwh l * RevenueParameters.peak_price rp *
         ChargingLocals.member_adjustment l /\
       ChargingLocals.standard_revenue l ==
         ChargingLocals.standard_kwh l * RevenueParameters.standard_price rp *
         ChargingLocals.member_adjustment l /\
       ChargingLocals.off_peak_revenue l ==
         ChargingLocals.off_peak_kwh l * RevenueParameters.off_peak_price rp *
         ChargingLocals.member_adjustment l /\
       returns (EnhancedSuperchargerCalculator.calculate_charging_revenue self) (fun r =>
         ChargingRevenue.peak_revenue r ==
           ChargingLocals.peak_revenue l * ChargingLocals.seasonal_avg l /\
         ChargingRevenue.standard_revenue r ==
           ChargingLocals.standard_revenue l * ChargingLocals.seasonal_avg l /\
         ChargingRevenue.off_peak_revenue r ==
           ChargingLocals.off_peak_revenue l * ChargingLocals.seasonal_avg l))) /\
  (forall revenue : Binary64.RevenueParameters.t,
     PrimFloat.eqb (Binary64.RevenueParameters.standard_price revenue) 0%float = false ->
     let s := Binary64.calculate_annual_sessions revenue in
     let member_adjustment :=
       (1 - Binary64.RevenueParameters.percent_members revenue *
            (Binary64.RevenueParameters.member_discount_per_kwh revenue /
             Binary64.RevenueParameters.standard_price revenue))%float in
     let seasonal_avg :=
       (Binary64.RevenueParameters.summer_multiplier revenue * 0.25 +
        Binary64.RevenueParameters.winter_multiplier revenue * 0.25 +
        Binary64.RevenueParameters.spring_fall_multiplier revenue * 0.50)%float in
     returns (Binary64.calculate_charging_revenue revenue) (fun r =>
       Binary64.ChargingRevenue.peak_kwh r =
         (Binary64.Sessions.peak_sessions s *
          Binary64.RevenueParameters.avg_kwh_per_session revenue)%float /\
       Binary64.ChargingRevenue.standard_kwh r =
         (Binary64.Sessions.standard_sessions s *
          Binary64.RevenueParameters.avg_kwh_per_session revenue)%float /\
       Binary64.ChargingRevenue.off_peak_kwh r =
         (Binary64.Sessions.off_peak_sessions s *
          Binary64.RevenueParameters.avg_kwh_per_session revenue)%float /\
       Binary64.ChargingRevenue.peak_revenue r =
         (Binary64.ChargingRevenue.peak_kwh r *
          Binary64.RevenueParameters.peak_price revenue *
          member_adjustment * seasonal_avg)%float /\
       Binary64.ChargingRevenue.standard_revenue r =
         (Binary64.ChargingRevenue.standard_kwh r *
          Binary64.RevenueParameters.standard_price revenue *
          member_adjustment * seasonal_avg)%float /\
       Binary64.ChargingRevenue.off_peak_revenue r =
         (Binary64.ChargingRevenue.off_peak_kwh r *
          Binary64.RevenueParameters.off_peak_price revenue *
          member_adjustment * seasonal_avg)%float)).
Proof.
  split.
  - intros self rp s Hsp member_adjustment seasonal_avg.
    unfold EnhancedSuperchargerCalculator.calculate_charging_revenue,
      EnhancedSuperchargerCalculator.charging_revenue_locals.
    fold rp. rewrite (py_div_ok _ _ Hsp).
    cbv beta iota zeta delta
      [bind returns EnhancedSuperchargerCalculator.charging_revenue_return
       ChargingRevenue.peak_kwh ChargingRevenue.standard_kwh ChargingRevenue.off_peak_kwh
       ChargingRevenue.peak_revenue ChargingRevenue.standard_revenue
       ChargingRevenue.off_peak_revenue
       ChargingLocals.member_adjustment ChargingLocals.seasonal_avg
       ChargingLocals.peak_kwh ChargingLocals.standard_kwh ChargingLocals.off_peak_kwh
       ChargingLocals.peak_revenue ChargingLocals.standard_revenue
       ChargingLocals.off_peak_revenue].
    fold s.
    repeat match goal with |- _ /\ _ => split end; reflexivity.
  - intros revenue Hsp s member_adjustment seasonal_avg.
    unfold Binary64.calculate_charging_revenue, Binary64.py_div.
    rewrite Hsp.
    cbv beta iota zeta delta [bind returns].
    repeat match goal with |- _ /\ _ => split end; reflexivity.
Qed.

Lemma tier_revenue_uses_one_member_adjustment_witness :
  returns (EnhancedSuperchargerCalculator.calculate_charging_revenue default_calculator)
    (fun r =>
       ChargingRevenue.peak_revenue r ==
         ChargingRevenue.peak_kwh r * 0.42 * (1 - 0.15 * (0.05 / 0.35)) *
         (1.15 * 0.25 + 0.95 * 0.25 + 1.00 * 0.50)) /\
  returns (Binary64.calculate_charging_revenue Binary64.RevenueParameters.default)
    (fun r =>
       Binary64.ChargingRevenue.peak_revenue r =
         (Binary64.ChargingRevenue.peak_kwh r * 0.42 * (1 - 0.15 * (0.05 / 0.35)) *
          (1.15 * 0.25 + 0.95 * 0.25 + 1.00 * 0.50))%float).
Proof.
  split.
  - refine (returns_weaken _ _ _ _
              (proj1 (proj1 tier_revenue_uses_one_member_adjustment default_calculator _))).
    + intros r (_ & _ & _ & H & _). exact H.
    + intros H. vm_compute in H. discriminate H.
  - refine (returns_weaken _ _ _ _
              (proj2 tier_revenue_uses_one_member_adjustment
                 Binary64.RevenueParameters.default _)).
    + intros r (_ & _ & _ & H & _). exact H.
    + vm_compute. reflexivity.
Defined.




(** ** Profitability metrics *)

(** C2.  The payback period is initial_investment / annual_profit when the
    annual profit is positive, and the "never" sentinel whenever the annual
    profit is zero or negative; the sentinel is no finite value.  This holds
    for the basic calculator and for the enhanced one (whose annual profit
    is computed whenever the standard price is not zero). *)
Theorem payback_period_finite_or_never :
  (forall b : SuperchargerProfitabilityCalculator.t,
     let inv := SuperchargerProfitabilityCalculator.calculate_initial_investment b in
     let p := SuperchargerProfitabilityCalculator.calculate_annual_profit b in
     (0 < p /\
      SuperchargerProfitabilityCalculator.calculate_payback_period b = Fin (inv / p)) \/
     (p <= 0 /\
      SuperchargerProfitabilityCalculator.calculate_payback_period b = Inf)) /\
  (forall e : EnhancedSuperchargerCalculator.t,
     ~ RevenueParameters.standard_price (EnhancedSuperchargerCalculator.revenue e) == 0 ->
     returns (EnhancedSuperchargerCalculator.calculate_annual_profit e) (fun p =>
       returns (EnhancedSuperchargerCalculator.calculate_roi_metrics e) (fun m =>
         let inv := InitialInvestment.total
                      (EnhancedSuperchargerCalculator.calculate_total_initial_investment e) in
         (0 < p /\ RoiMetrics.payback_period_years m = Fin (inv / p)) \/
         (p <= 0 /\ RoiMetrics.payback_period_years m = Inf)))) /\
  (forall q : Q, Inf <> Fin q) /\
  is_finite Inf = false.
Proof.
  split; [|split; [|split]].
  - intros b.
    unfold SuperchargerProfitabilityCalculator.calculate_payback_period. simpl.
    destruct (Qleb _ 0) eqn:Hp.
    + right. split; [now apply Qleb_true | reflexivity].
    + left. split; [now apply Qleb_false | reflexivity].
  - intros e Hsp.
    destruct (EnhancedFacts.calculate_annual_profit_ok e Hsp) as [p Hp].
    rewrite Hp, (EnhancedFacts.calculate_roi_metrics_eq e p Hp). simpl.
    destruct (Qgtb p 0) eqn:Hpos.
    + left. split; [now apply Qgtb_true | reflexivity].
    + right. split; [now apply Qgtb_false | reflexivity].
  - discriminate.
  - reflexivity.
Qed.

Lemma payback_period_finite_or_never_witness :
  returns (EnhancedSuperchargerCalculator.calculate_annual_profit default_calculator)
    (fun p =>
       returns (EnhancedSuperchargerCalculator.calculate_roi_metrics default_calculator)
         (fun m =>
            (0 < p /\ RoiMetrics.payback_period_years m = Fin (888000 / p)) \/
            (p <= 0 /\ RoiMetrics.payback_period_years m = Inf))).
Proof.
  refine (proj1 (proj2 payback_period_finite_or_never) default_calculator _).
  intros H. vm_compute in H. discriminate H.
Defined.

(** C3, as the code has it.  The basic calculator gives
    (annual_profit / initial_investment) * 100 when the initial investment
    is not zero and 0 when it is exactly 0, and cannot raise.  The enhanced
    calculator, whenever the standard price is not zero, gives
    (annual_profit / initial_investment) * 100 when the initial investment
    is positive and 0 when it is zero or negative; so at an investment of
    exactly 0 both give 0 whatever the sign of the profit. *)
Theorem roi_percentage_branches :
  (forall b : SuperchargerProfitabilityCalculator.t,
     let inv := SuperchargerProfitabilityCalculator.calculate_initial_investment b in
     let p := SuperchargerProfitabilityCalculator.calculate_annual_profit b in
     (~ inv == 0 /\
      SuperchargerProfitabilityCalculator.calculate_roi b == (p / inv) * 100) \/
     (inv == 0 /\
      SuperchargerProfitabilityCalculator.calculate_roi b == 0)) /\
  (forall e : EnhancedSuperchargerCalculator.t,
     ~ RevenueParameters.standard_price (EnhancedSuperchargerCalculator.revenue e) == 0 ->
     returns (EnhancedSuperchargerCalculator.calculate_annual_profit e) (fun p =>
       returns (EnhancedSuperchargerCalculator.calculate_roi_metrics e) (fun m =>
         let inv := InitialInvestment.total
                      (EnhancedSuperchargerCalculator.calculate_total_initial_investment e) in
         (0 < inv /\ RoiMetrics.roi_percentage m == (p / inv) * 100) \/
         (inv <= 0 /\ RoiMetrics.roi_percentage m == 0)))).
Proof.
  split.
  - intros b. unfold SuperchargerProfitabilityCalculator.calculate_roi. simpl.
    destruct (Qeq_bool _ 0) eqn:Hinv.
    + right. split; [now apply Qeq_bool_iff | reflexivity].
    + left. split; [now apply Qeq_bool_false | reflexivity].
  - intros e Hsp.
    destruct (EnhancedFacts.calculate_annual_profit_ok e Hsp) as [p Hp].
    rewrite Hp, (EnhancedFacts.calculate_roi_metrics_eq e p Hp). simpl.
    destruct (Qgtb _ 0) eqn:Hinv.
    + left. split; [now apply Qgtb_true | reflexivity].
    + right. split; [now apply Qgtb_false | reflexivity].
Qed.

Lemma roi_percentage_branches_witness :
  returns (EnhancedSuperchargerCalculator.calculate_annual_profit default_calculator)
    (fun p =>
       returns (EnhancedSuperchargerCalculator.calculate_roi_metrics default_calculator)
         (fun m =>
            (0 < 888000 /\ RoiMetrics.roi_percentage m == (p / 888000) * 100) \/
            (888000 <= 0 /\ RoiMetrics.roi_percentage m == 0))).
Proof.
  refine (proj2 roi_percentage_branches default_calculator _).
  intros H. vm_compute in H. discriminate H.
Defined.

(** C3 as stated fails on the enhanced calculator: with an initial
    investment of -1,162,000 (not zero) and a positive annual profit, the
    ROI returned is 0 and not (annual_profit / initial_investment) * 100. *)
Lemma roi_negative_investment_is_not_the_ratio :
  let inv := InitialInvestment.total
               (EnhancedSuperchargerCalculator.calculate_total_initial_investment
                  negative_investment_calculator) in
  ~ inv == 0 /\
  returns (EnhancedSuperchargerCalculator.calculate_annual_profit
             negative_investment_calculator) (fun p =>
    returns (EnhancedSuperchargerCalculator.calculate_roi_metrics
               negative_investment_calculator) (fun m =>
      ~ RoiMetrics.roi_percentage m == (p / inv) * 100)).
Proof.
  split.
  - intros H. vm_compute in H. discriminate H.
  - vm_compute. intros H. discriminate H.
Qed.

(** C9.  In the enhanced calculator a configuration whose total initial
    investment is negative (or zero) gets roi_percentage 0: the zero-ROI
    branch is taken for every non-positive investment. *)
Theorem roi_zero_for_nonpositive_investment (self : EnhancedSuperchargerCalculator.t) :
  ~ RevenueParameters.standard_price (EnhancedSuperchargerCalculator.revenue self) == 0 ->
  InitialInvestment.total
    (EnhancedSuperchargerCalculator.calculate_total_initial_investment self) <= 0 ->
  returns (EnhancedSuperchargerCalculator.calculate_roi_metrics self) (fun m =>
    RoiMetrics.roi_percentage m == 0).
Proof.
  intros Hsp Hinv.
  destruct (EnhancedFacts.calculate_annual_profit_ok self Hsp) as [p Hp].
  rewrite (EnhancedFacts.calculate_roi_metrics_eq self p Hp).
  cbv beta iota zeta delta [returns RoiMetrics.roi_percentage].
  apply Qgtb_false in Hinv. rewrite Hinv. reflexivity.
Qed.

Lemma roi_zero_for_nonpositive_investment_witness :
  InitialInvestment.total
    (EnhancedSuperchargerCalculator.calculate_total_initial_investment
       negative_investment_calculator) < 0 /\
  returns (EnhancedSuperchargerCalculator.calculate_roi_metrics
             negative_investment_calculator) (fun m =>
    RoiMetrics.roi_percentage m == 0).
Proof.
  split.
  - vm_compute. reflexivity.
  - apply (roi_zero_for_nonpositive_investment negative_investment_calculator).
    + intros H. vm_compute in H. discriminate H.
    + vm_compute. intros H. discriminate H.
Defined.

(** ** The stable sort behind [nlargest] *)

Section SortFacts.
Context {A : Type}.
Variable leb : A -> A -> bool.

Lemma insert_by_perm (x : A) (l : list A) :
  Permutation (insert_by leb x l) (x :: l).
Proof.
  induction l as [|y l IH]; simpl.
  - apply Permutation_refl.
  - destruct (leb x y).
    + apply Permutation_refl.
    + apply Permutation_trans with (y :: x :: l).
      * now apply perm_skip.
      * apply perm_swap.
Qed.

Lemma sort_by_perm (l : list A) : Permutation (sort_by leb l) l.
Proof.
  induction l as [|x l IH]; simpl.
  - apply perm_nil.
  - apply Permutation_trans with (x :: sort_by leb l).
    + apply insert_by_perm.
    + now apply perm_skip.
Qed.

Lemma sort_by_length (l : list A) : List.length (sort_by leb l) = List.length l.
Proof. apply Permutation_length, sort_by_perm. Qed.

Lemma Forall_insert_by (P : A -> Prop) (x : A) (l : list A) :
  P x -> Forall P l -> Forall P (insert_by leb x l).
Proof.
  intros Hx Hl.
  apply (Permutation_Forall (Permutation_sym (insert_by_perm x l))).
  now constructor.
Qed.

Lemma Forall_sort_by (P : A -> Prop) (l : list A) :
  Forall P l -> Forall P (sort_by leb l).
Proof.
  intros Hl. apply (Permutation_Forall (Permutation_sym (sort_by_perm l)) Hl).
Qed.
End SortFacts.

Section Descending.
Context {A : Type}.
Variable key : A -> Q.
Variable label : A -> nat.

Let before := before key label.

Let desc (x y : A) : bool := Qle_bool (key y) (key x).

Lemma before_key_le (a b : A) : before a b -> key b <= key a.
Proof.
  intros [Hlt | [Heq _]].
  - now apply Qlt_le_weak.
  - rewrite Heq. apply Qle_refl.
Qed.

Lemma insert_desc_sorted (x : A) (l : list A) :
  Forall (fun y => (label x < label y)%nat) l ->
  StronglySorted before l ->
  StronglySorted before (insert_by desc x l).
Proof.
  intros Hlab Hsorted.
  induction Hsorted as [|y l Hs IH Hy]; simpl.
  - repeat constructor.
  - apply Forall_cons_iff in Hlab. destruct Hlab as [Hxy Hlab].
    unfold desc at 1. destruct (Qle_bool (key y) (key x)) eqn:Hle.
    + apply Qle_bool_iff in Hle.
      constructor; [now constructor|].
      assert (Hbelow : Forall (fun z => key z <= key x /\ (label x < label z)%nat) (y :: l)).
      { constructor; [now split|].
        rewrite Forall_forall in Hy, Hlab |- *.
        intros z Hz. split; [|now apply Hlab].
        apply Qle_trans with (key y); [|exact Hle].
        apply before_key_le, Hy, Hz. }
      apply (Forall_impl _ (P := fun z => key z <= key x /\ (label x < label z)%nat));
        [|exact Hbelow].
      intros z [Hz Hl]. unfold before.
      destruct (Qlt_le_dec (key z) (key x)) as [Hlt | Hge].
      * now left.
      * right. split; [now apply Qle_antisym | exact Hl].
    + constructor; [now apply IH|].
      apply Forall_insert_by; [|exact Hy].
      left. apply Qnot_le_lt. intros Hc.
      apply Qle_bool_iff in Hc. congruence.
Qed.

Lemma sort_desc_sorted (l : list A) :
  StronglySorted lt (map label l) ->
  StronglySorted before (sort_by desc l).
Proof.
  induction l as [|x l IH]; simpl; intros Hlab.
  - constructor.
  - apply StronglySorted_inv in Hlab. destruct Hlab as [Hl Hx].
    apply insert_desc_sorted; [|now apply IH].
    apply Forall_sort_by.
    rewrite Forall_map in Hx. exact Hx.
Qed.

Lemma StronglySorted_firstn (R : A -> A -> Prop) (n : nat) (l : list A) :
  StronglySorted R l -> StronglySorted R (firstn n l).
Proof.
  intros Hs. revert n.
  induction Hs as [|x l Hs IH Hx]; intros [|n]; simpl; try constructor.
  - apply IH.
  - rewrite Forall_forall in Hx |- *.
    intros z Hz. apply Hx. rewrite <- (firstn_skipn n l).
    apply in_or_app. now left.
Qed.

Lemma nlargest_sorted (n : Z) (l : list A) :
  StronglySorted lt (map label l) ->
  StronglySorted before (nlargest n key l).
Proof.
  intros Hlab. unfold nlargest. destruct (n <=? 0)%Z.
  - constructor.
  - apply StronglySorted_firstn, sort_desc_sorted, Hlab.
Qed.

Lemma nlargest_length (n : Z) (l : list A) :
  List.length (nlargest n key l) = Nat.min (Z.to_nat n) (List.length l).
Proof.
  unfold nlargest. destruct (n <=? 0)%Z eqn:Hn.
  - apply Z.leb_le in Hn.
    replace (Z.to_nat n) with 0%nat by lia. reflexivity.
  - now rewrite length_firstn, sort_by_length.
Qed.

Lemma StronglySorted_app_cross (R : A -> A -> Prop) (l1 l2 : list A) :
  StronglySorted R (l1 ++ l2) -> Forall (fun a => Forall (R a) l2) l1.
Proof.
  induction l1 as [|a l1 IH]; simpl; intros Hs; constructor.
  - apply StronglySorted_inv in Hs. destruct Hs as [_ Ha].
    apply Forall_app in Ha. apply Ha.
  - apply IH. apply StronglySorted_inv in Hs. apply Hs.
Qed.

(** The rows [nlargest] leaves out are rows of the frame, and none of them
    has a larger key than a row it returns. *)
Lemma nlargest_top (n : Z) (l : list A) :
  StronglySorted lt (map label l) ->
  exists rest,
    Permutation (nlargest n key l ++ rest) l /\
    Forall (fun o => Forall (fun r => key r <= key o) rest) (nlargest n key l).
Proof.
  intros Hlab. unfold nlargest. destruct (n <=? 0)%Z.
  - exists l. split; [apply Permutation_refl | constructor].
  - exists (skipn (Z.to_nat n) (sort_by desc l)). split.
    + rewrite firstn_skipn. apply sort_by_perm.
    + pose proof (sort_desc_sorted l Hlab) as Hs.
      rewrite <- (firstn_skipn (Z.to_nat n)) in Hs.
      apply StronglySorted_app_cross in Hs.
      apply (Forall_impl _ (P := fun a => Forall (before a) (skipn (Z.to_nat n) (sort_by desc l))));
        [|exact Hs].
      intros o Ho. apply (Forall_impl _ (before_key_le o) Ho).
Qed.
End Descending.

Lemma StronglySorted_map {A B : Type} (f : A -> B)
    (R : A -> A -> Prop) (R' : B -> B -> Prop) (l : list A) :
  (forall a b, R a b -> R' (f a) (f b)) ->
  StronglySorted R l -> StronglySorted R' (map f l).
Proof.
  intros Hf Hs. induction Hs as [|x l Hs IH Hx]; simpl; constructor.
  - exact IH.
  - rewrite Forall_map. apply (Forall_impl _ (Hf x) Hx).
Qed.

Lemma StronglySorted_weaken {A : Type} (R R' : A -> A -> Prop) (l : list A) :
  (forall a b, R a b -> R' a b) ->
  StronglySorted R l -> StronglySorted R' l.
Proof.
  intros Himp Hs. rewrite <- (map_id l).
  now apply (StronglySorted_map (fun a => a) R R').
Qed.

Lemma seq_StronglySorted (len start : nat) : StronglySorted lt (seq start len).
Proof.
  revert start. induction len as [|len IH]; intros start; simpl; constructor.
  - apply IH.
  - apply Forall_forall. intros z Hz. apply in_seq in Hz. lia.
Qed.

(** ** The market analyzer *)

Local Open Scope string_scope.

(** No column of the analyzer's frame divides by zero: every row has a
    non-zero population, charger count and density, and the dataset maximum,
    the dataset sums and the national average are not zero. *)
Lemma metrics_divisors_nonzero :
  let raw := MarketAnalyzer._create_dataframe in
  Forall (fun r => RawRow.population r <> 0%Z /\ RawRow.chargers r <> 0%Z) raw /\
  Forall (fun r => ~ Row.chargers_per_100k r == 0)
         (DataFrame.rows (MarketAnalyzer.df MarketAnalyzer.init)) /\
  series_max_Z (map RawRow.population raw) <> 0%Z /\
  series_sum_Z (map RawRow.population raw) <> 0%Z /\
  ~ MarketAnalyzer.national_avg_density
      (map RawRow.population raw) (map RawRow.chargers raw) == 0.
Proof.
  repeat split.
  - apply Forall_forall. intros r Hr.
    assert (Hb : forallb (fun r => negb (RawRow.population r =? 0)%Z &&
                                   negb (RawRow.chargers r =? 0)%Z)
                         MarketAnalyzer._create_dataframe = true)
      by (vm_compute; reflexivity).
    rewrite forallb_forall in Hb. specialize (Hb r Hr).
    apply andb_true_iff in Hb. destruct Hb as [Hp Hc].
    rewrite negb_true_iff in Hp, Hc.
    split; [now apply Z.eqb_neq | now apply Z.eqb_neq].
  - apply Forall_forall. intros r Hr.
    assert (Hb : forallb (fun r => negb (Qeq_bool (Row.chargers_per_100k r) 0))
                         (DataFrame.rows (MarketAnalyzer.df MarketAnalyzer.init)) = true)
      by (vm_compute; reflexivity).
    rewrite forallb_forall in Hb. specialize (Hb r Hr).
    rewrite negb_true_iff in Hb. now apply Qeq_bool_false.
  - vm_compute. discriminate.
  - vm_compute. discriminate.
  - intros H. vm_compute in H. discriminate H.
Qed.

(** C7.  On a frame with the default index (the label of a row is its
    position in the dataset), the rows [get_top_opportunities n] returns are
    non-increasing in opportunity_score, and rows of equal score come in
    dataset order; they are min(n, dataset size) rows of the dataset, and no
    row left out has a larger score than a row returned. *)
Theorem top_opportunities_descending_stable (self : MarketAnalyzer.t) (n : Z) :
  let rows := DataFrame.rows (MarketAnalyzer.df self) in
  map Row.label rows = seq 0 (List.length rows) ->
  let out := fst (MarketAnalyzer.get_top_opportunities n self) in
  StronglySorted
    (fun a b => OpportunityRow.opportunity_score b <= OpportunityRow.opportunity_score a)
    out /\
  StronglySorted
    (fun a b => OpportunityRow.opportunity_score a == OpportunityRow.opportunity_score b ->
                (OpportunityRow.label a < OpportunityRow.label b)%nat)
    out /\
  List.length out = Nat.min (Z.to_nat n) (List.length rows) /\
  exists rest,
    Permutation (out ++ rest) (map MarketAnalyzer.opportunity_columns rows) /\
    Forall (fun o =>
              Forall (fun r => OpportunityRow.opportunity_score r <=
                               OpportunityRow.opportunity_score o) rest)
           out.
Proof.
  intros rows Hindex out.
  assert (Hlab : StronglySorted lt (map Row.label rows))
    by (rewrite Hindex; apply seq_StronglySorted).
  pose proof (nlargest_sorted Row.opportunity_score Row.label n rows Hlab) as Hsorted.
  assert (Hout : StronglySorted
                   (before OpportunityRow.opportunity_score OpportunityRow.label) out).
  { unfold out. simpl.
    apply (StronglySorted_map _ (before Row.opportunity_score Row.label)); [|exact Hsorted].
    intros a b Hab. exact Hab. }
  split; [|split; [|split]].
  - apply (StronglySorted_weaken _ _ _ (before_key_le _ _) Hout).
  - apply (StronglySorted_weaken
             (before OpportunityRow.opportunity_score OpportunityRow.label)); [|exact Hout].
    intros a b [Hlt | [_ Hl]] Heq.
    + rewrite Heq in Hlt. now apply Qlt_irrefl in Hlt.
    + exact Hl.
  - unfold out. simpl. rewrite length_map. apply nlargest_length.
  - destruct (nlargest_top Row.opportunity_score Row.label n rows Hlab)
      as [rest [Hperm Htop]].
    exists (map MarketAnalyzer.opportunity_columns rest). split.
    + unfold out. simpl. rewrite <- map_app. now apply Permutation_map.
    + unfold out. simpl. rewrite Forall_map.
      apply (Forall_impl _ (P := fun o => Forall (fun r => Row.opportunity_score r <=
                                                        Row.opportunity_score o) rest));
        [|exact Htop].
      intros o Ho. rewrite Forall_map. exact Ho.
Qed.

Lemma top_opportunities_descending_stable_witness :
  let out := fst (MarketAnalyzer.get_top_opportunities 10 MarketAnalyzer.init) in
  StronglySorted
    (fun a b => OpportunityRow.opportunity_score b <= OpportunityRow.opportunity_score a)
    out /\
  StronglySorted
    (fun a b => OpportunityRow.opportunity_score a == OpportunityRow.opportunity_score b ->
                (OpportunityRow.label a < OpportunityRow.label b)%nat)
    out /\
  List.length out = 10%nat.
Proof.
  destruct (top_opportunities_descending_stable MarketAnalyzer.init 10) as (H1 & H2 & H3 & _).
  - vm_compute. reflexivity.
  - split; [exact H1 | split; [exact H2 |]].
    rewrite H3. vm_compute. reflexivity.
Defined.

(** C8, as the code has it.  When no row of the dataset has the queried
    city and state, the classification is "Unknown".  Otherwise it goes by
    the coverage gap of the first such row: "Underserved (High Opportunity)"
    when the gap is below -0.5, "Oversaturated" when it is above 0.5, and
    "Balanced" otherwise.  Every city/state pair of the dataset gets one of
    these three bands. *)
Theorem classify_market_bands (self : MarketAnalyzer.t) (city state : string) :
  let band := fst (MarketAnalyzer.classify_market city state self) in
  match MarketAnalyzer.market_of city state (DataFrame.rows (MarketAnalyzer.df self)) with
  | [] => band = "Unknown"
  | first :: _ =>
      let gap := Row.coverage_gap first in
      (gap < -0.5 /\ band = "Underserved (High Opportunity)") \/
      (0.5 < gap /\ band = "Oversaturated") \/
      (-0.5 <= gap /\ gap <= 0.5 /\ band = "Balanced")
  end /\
  Forall (fun r =>
            In (fst (MarketAnalyzer.classify_market (RawRow.city r) (RawRow.state r)
                       MarketAnalyzer.init))
               ["Underserved (High Opportunity)"; "Oversaturated"; "Balanced"])
         MarketAnalyzer._create_dataframe.
Proof.
  split.
  - unfold MarketAnalyzer.classify_market, sbind, sget, sret. simpl.
    destruct (MarketAnalyzer.market_of city state _) as [|first rest]; [reflexivity|].
    unfold MarketAnalyzer.classify_gap.
    destruct (Qltb (Row.coverage_gap first) (-0.5)) eqn:Hlow.
    + left. split; [now apply Qltb_true | reflexivity].
    + destruct (Qgtb (Row.coverage_gap first) 0.5) eqn:Hhigh.
      * right. left. split; [now apply Qgtb_true | reflexivity].
      * right. right.
        split; [now apply Qltb_false | split; [now apply Qgtb_false | reflexivity]].
  - apply Forall_forall. intros r Hr.
    assert (Hb : forallb
                   (fun r =>
                      existsb (String.eqb
                                 (fst (MarketAnalyzer.classify_market
                                         (RawRow.city r) (RawRow.state r)
                                         MarketAnalyzer.init)))
                              ["Underserved (High Opportunity)"; "Oversaturated"; "Balanced"])
                   MarketAnalyzer._create_dataframe = true)
      by (vm_compute; reflexivity).
    rewrite forallb_forall in Hb. specialize (Hb r Hr).
    apply existsb_exists in Hb. destruct Hb as [band [Hin Heq]].
    apply String.eqb_eq in Heq. now rewrite Heq.
Qed.

(** C8 as stated fails: a pair that is not in the dataset is classified
    "Unknown", which is none of the three bands. *)
Lemma classify_market_unknown_pair :
  fst (MarketAnalyzer.classify_market "Gotham" "NJ" MarketAnalyzer.init) = "Unknown" /\
  ~ In (fst (MarketAnalyzer.classify_market "Gotham" "NJ" MarketAnalyzer.init))
       ["Underserved (High Opportunity)"; "Oversaturated"; "Balanced"].
Proof.
  split.
  - vm_compute. reflexivity.
  - vm_compute. intros [H | [H | [H | []]]]; discriminate H.
Qed.

(** C6, as the code has it.  get_market_data, get_top_opportunities,
    get_oversaturated_markets, get_underserved_markets, get_national_stats
    and classify_market leave the stored table as it was, and
    get_market_data returns the stored table.  get_regional_analysis keeps
    every row, with all the columns it had at construction, and stores a
    'region' column on the table, holding the region of each row's state; a
    further call leaves the table as the first one left it and returns the
    same aggregation.  After a call of get_regional_analysis,
    get_top_opportunities, get_oversaturated_markets,
    get_underserved_markets, get_national_stats and classify_market answer
    as they did before it, while get_market_data returns the table with the
    added 'region' column. *)
Theorem queries_frame (self : MarketAnalyzer.t) (n : Z) (city state : string) :
  snd (MarketAnalyzer.get_market_data self) = self /\
  snd (MarketAnalyzer.get_top_opportunities n self) = self /\
  snd (MarketAnalyzer.get_oversaturated_markets n self) = self /\
  snd (MarketAnalyzer.get_underserved_markets n self) = self /\
  snd (MarketAnalyzer.get_national_stats self) = self /\
  snd (MarketAnalyzer.classify_market city state self) = self /\
  fst (MarketAnalyzer.get_market_data self) = MarketAnalyzer.df self /\
  let self' := snd (MarketAnalyzer.get_regional_analysis self) in
  DataFrame.rows (MarketAnalyzer.df self') = DataFrame.rows (MarketAnalyzer.df self) /\
  DataFrame.region (MarketAnalyzer.df self') =
    Some (map (fun r => MarketAnalyzer.get_region (Row.state r))
              (DataFrame.rows (MarketAnalyzer.df self))) /\
  snd (MarketAnalyzer.get_regional_analysis self') = self' /\
  fst (MarketAnalyzer.get_regional_analysis self') =
    fst (MarketAnalyzer.get_regional_analysis self) /\
  fst (MarketAnalyzer.get_top_opportunities n self') =
    fst (MarketAnalyzer.get_top_opportunities n self) /\
  fst (MarketAnalyzer.get_oversaturated_markets n self') =
    fst (MarketAnalyzer.get_oversaturated_markets n self) /\
  fst (MarketAnalyzer.get_underserved_markets n self') =
    fst (MarketAnalyzer.get_underserved_markets n self) /\
  fst (MarketAnalyzer.get_national_stats self') =
    fst (MarketAnalyzer.get_national_stats self) /\
  fst (MarketAnalyzer.classify_market city state self') =
    fst (MarketAnalyzer.classify_market city state self) /\
  fst (MarketAnalyzer.get_market_data self') =
    {| DataFrame.rows := DataFrame.rows (MarketAnalyzer.df self);
       DataFrame.region :=
         Some (map (fun r => MarketAnalyzer.get_region (Row.state r))
                   (DataFrame.rows (MarketAnalyzer.df self))) |}.
Proof.
  unfold MarketAnalyzer.get_market_data, MarketAnalyzer.get_top_opportunities,
    MarketAnalyzer.get_oversaturated_markets, MarketAnalyzer.get_underserved_markets,
    MarketAnalyzer.get_national_stats, MarketAnalyzer.classify_market,
    MarketAnalyzer.get_regional_analysis, MarketAnalyzer.set_region,
    sbind, sget, sput, sret.
  simpl. repeat split; reflexivity.
Qed.

(** C6 as stated fails: the table stored in a fresh analyzer has no
    'region' column, and after get_regional_analysis it has one, which
    get_market_data then returns. *)
Lemma regional_analysis_changes_stored_table :
  DataFrame.region (MarketAnalyzer.df MarketAnalyzer.init) = None /\
  snd (MarketAnalyzer.get_regional_analysis MarketAnalyzer.init) <> MarketAnalyzer.init /\
  fst (MarketAnalyzer.get_market_data
         (snd (MarketAnalyzer.get_regional_analysis MarketAnalyzer.init))) <>
  fst (MarketAnalyzer.get_market_data MarketAnalyzer.init).
Proof.
  split; [|split].
  - reflexivity.
  - intros H.
    apply (f_equal (fun a => DataFrame.region (MarketAnalyzer.df a))) in H.
    vm_compute in H. discriminate H.
  - intros H.
    apply (f_equal DataFrame.region) in H.
    vm_compute in H. discriminate H.
Qed.

(** * Further properties of the calculators *)

Local Close Scope string_scope.

Module ReportFacts.
Import EnhancedSuperchargerCalculator EnhancedReport.

Lemma generate_comprehensive_report_ok (self : t) :
  ~ RP.standard_price (revenue self) == 0 ->
  exists r, generate_comprehensive_report self = Ok r /\
            ComprehensiveReport.initial_investment r =
              calculate_total_initial_investment self /\
            calculate_total_annual_revenue self = Ok (ComprehensiveReport.annual_revenue r) /\
            calculate_total_annual_costs self = Ok (ComprehensiveReport.annual_costs r) /\
            calculate_annual_profit self = Ok (ComprehensiveReport.annual_profit r) /\
            calculate_electricity_costs self =
              Ok (ComprehensiveReport.electricity_breakdown r) /\
            calculate_charging_revenue self =
              Ok (ComprehensiveReport.charging_revenue_detail r) /\
            ComprehensiveReport.additional_revenue r = calculate_additional_revenue self /\
            calculate_roi_metrics self = Ok (ComprehensiveReport.roi_metrics r) /\
            ComprehensiveReport.sessions_breakdown r = calculate_annual_sessions self.
Proof.
  intros Hsp.
  destruct (EnhancedFacts.calculate_charging_revenue_ok self Hsp) as [c Hc].
  destruct (EnhancedFacts.calculate_annual_profit_ok self Hsp) as [p Hp].
  pose proof (EnhancedFacts.calculate_roi_metrics_eq self p Hp) as Hm.
  unfold generate_comprehensive_report.
  rewrite Hp, Hm.
  unfold calculate_total_annual_revenue, calculate_total_annual_costs,
    calculate_electricity_costs.
  rewrite Hc. simpl.
  eexists. repeat split.
Qed.

Lemma generate_comprehensive_report_raises (self : t) :
  RP.standard_price (revenue self) == 0 ->
  generate_comprehensive_report self = Raise ZeroDivisionError.
Proof.
  intros Hsp. unfold generate_comprehensive_report, calculate_total_annual_revenue.
  now rewrite (EnhancedFacts.charging_revenue_raises self Hsp).
Qed.
End ReportFacts.

(** X1.  In the enhanced calculator a standard price of 0 is the one way to
    an exception: the charging revenue, the annual profit, the ROI metrics
    and the comprehensive report each raise ZeroDivisionError exactly when
    standard_price is 0 (also when there is no member and no discount), and
    return normally otherwise. *)
Theorem enhanced_raises_iff_zero_standard_price (self : EnhancedSuperchargerCalculator.t) :
  let sp := RevenueParameters.standard_price (EnhancedSuperchargerCalculator.revenue self) in
  (EnhancedSuperchargerCalculator.calculate_charging_revenue self = Raise ZeroDivisionError
     <-> sp == 0) /\
  (EnhancedSuperchargerCalculator.calculate_annual_profit self = Raise ZeroDivisionError
     <-> sp == 0) /\
  (EnhancedSuperchargerCalculator.calculate_roi_metrics self = Raise ZeroDivisionError
     <-> sp == 0) /\
  (EnhancedReport.generate_comprehensive_report self = Raise ZeroDivisionError
     <-> sp == 0) /\
  (returns (EnhancedReport.generate_comprehensive_report self) (fun _ => True)
     <-> ~ sp == 0).
Proof.
  intros sp.
  destruct (Qeq_dec sp 0) as [Hz | Hnz].
  - pose proof (EnhancedFacts.charging_revenue_raises self Hz) as Hc.
    pose proof (EnhancedFacts.calculate_annual_profit_raises self Hz) as Hp.
    pose proof (ReportFacts.generate_comprehensive_report_raises self Hz) as Hr.
    assert (Hm : EnhancedSuperchargerCalculator.calculate_roi_metrics self =
                 Raise ZeroDivisionError).
    { unfold EnhancedSuperchargerCalculator.calculate_roi_metrics. now rewrite Hp. }
    rewrite Hc, Hp, Hm, Hr. simpl. tauto.
  - destruct (EnhancedFacts.calculate_charging_revenue_ok self Hnz) as [c Hc].
    destruct (EnhancedFacts.calculate_annual_profit_ok self Hnz) as [p Hp].
    destruct (ReportFacts.generate_comprehensive_report_ok self Hnz) as [r [Hr _]].
    rewrite (EnhancedFacts.calculate_roi_metrics_eq self p Hp), Hc, Hp, Hr. simpl.
    repeat split; intros H; try discriminate H; try contradiction; auto.
Qed.



(** ** The revenue model, further *)

Local Open Scope string_scope.



(** X12.  The member adjustment is a proper discount factor as long as the
    inputs are sensible: with a positive standard price, a member fraction
    between 0 and 1 and a discount between 0 and the standard price, the
    factor 1 - percent_members * member_discount / standard_price lies
    between 0 and 1. *)
Theorem member_adjustment_between_0_and_1 (self : EnhancedSuperchargerCalculator.t) :
  let rp := EnhancedSuperchargerCalculator.revenue self in
  0 < RevenueParameters.standard_price rp ->
  0 <= RevenueParameters.percent_members rp ->
  RevenueParameters.percent_members rp <= 1 ->
  0 <= RevenueParameters.member_discount_per_kwh rp ->
  RevenueParameters.member_discount_per_kwh rp <= RevenueParameters.standard_price rp ->
  returns (EnhancedSuperchargerCalculator.charging_revenue_locals self) (fun l =>
    0 <= ChargingLocals.member_adjustment l /\ ChargingLocals.member_adjustment l <= 1).
Proof.
  intros rp Hsp Hm0 Hm1 Hd0 Hd1.
  assert (Hnz : ~ RevenueParameters.standard_price rp == 0) by lra.
  unfold EnhancedSuperchargerCalculator.charging_revenue_locals.
  fold rp. rewrite (py_div_ok _ _ Hnz).
  cbv beta iota zeta delta [bind returns ChargingLocals.member_adjustment].
  set (ratio := RevenueParameters.member_discount_per_kwh rp /
                RevenueParameters.standard_price rp).
  assert (Hr0 : 0 <= ratio).
  { unfold ratio. apply Qle_shift_div_l; [exact Hsp | lra]. }
  assert (Hr1 : ratio <= 1).
  { unfold ratio. apply Qle_shift_div_r; [exact Hsp | lra]. }
  assert (Hprod0 : 0 <= RevenueParameters.percent_members rp * ratio)
    by (apply Qmult_le_0_compat; assumption).
  assert (Hprod1 : RevenueParameters.percent_members rp * ratio <= 1).
  { apply Qle_trans with (1 * ratio); [|lra].
    apply Qmult_le_compat_r; assumption. }
  split; lra.
Qed.

Lemma member_adjustment_between_0_and_1_witness :
  returns (EnhancedSuperchargerCalculator.charging_revenue_locals default_calculator) (fun l =>
    0 <= ChargingLocals.member_adjustment l /\ ChargingLocals.member_adjustment l <= 1).
Proof.
  apply (member_adjustment_between_0_and_1 default_calculator);
    vm_compute; try reflexivity; intros H; discriminate H.
Defined.

Local Close Scope string_scope.

(** * Further properties of the market analyzer *)

(** ** Sums and maxima of integer columns *)

Lemma series_sum_Z_ge (l : list Z) (x : Z) :
  Forall (fun y => 0 < y)%Z l -> In x l -> (x <= series_sum_Z l)%Z.
Proof.
  induction l as [|y l IH]; intros Hpos Hin; [contradiction|].
  apply Forall_cons_iff in Hpos. destruct Hpos as [Hy Hl].
  assert (Hsum : (0 <= series_sum_Z l)%Z).
  { clear -Hl. induction l as [|z l IH]; simpl; [lia|].
    apply Forall_cons_iff in Hl. destruct Hl as [Hz Hl]. specialize (IH Hl). lia. }
  simpl. destruct Hin as [-> | Hin]; [lia|].
  specialize (IH Hl Hin). lia.
Qed.

Lemma fold_max_ge_init (l : list Z) (d : Z) : (d <= fold_right Z.max d l)%Z.
Proof. induction l as [|y l IH]; simpl; lia. Qed.

Lemma fold_max_ge_In (l : list Z) (d x : Z) : In x l -> (x <= fold_right Z.max d l)%Z.
Proof.
  induction l as [|y l IH]; intros Hin; [contradiction|].
  simpl. destruct Hin as [-> | Hin]; [lia|]. specialize (IH Hin). lia.
Qed.

Lemma series_max_Z_ge (l : list Z) (x : Z) : In x l -> (x <= series_max_Z l)%Z.
Proof. apply fold_max_ge_In. Qed.

Lemma inject_Z_pos (z : Z) : (0 < z)%Z -> 0 < inject_Z z.
Proof. intros H. change 0 with (inject_Z 0). now rewrite <- Zlt_Qlt. Qed.

(** X13.  On a frame whose populations and charger counts are all positive,
    the derived columns of every row have their signs and ranges:
    people_per_charger and chargers_per_100k are positive, the coverage gap
    is the density minus the national average density, so it is negative
    exactly for a density under the national average and positive exactly
    for one above it, the market size score lies in (0, 100] and is 100 for
    a row with the largest population, and the opportunity score is
    positive. *)
Theorem metrics_ranges (raw : list RawRow.t) :
  Forall (fun r => (0 < RawRow.population r)%Z /\ (0 < RawRow.chargers r)%Z) raw ->
  let avg :=
    MarketAnalyzer.national_avg_density (map RawRow.population raw) (map RawRow.chargers raw) in
  Forall (fun r =>
            0 < Row.people_per_charger r /\
            0 < Row.chargers_per_100k r /\
            Row.coverage_gap r = Row.chargers_per_100k r - avg /\
            (Row.coverage_gap r < 0 <-> Row.chargers_per_100k r < avg) /\
            (0 < Row.coverage_gap r <-> avg < Row.chargers_per_100k r) /\
            0 < Row.market_size_score r /\ Row.market_size_score r <= 100 /\
            (Row.population r = series_max_Z (map RawRow.population raw) ->
             Row.market_size_score r == 100) /\
            0 < Row.opportunity_score r)
         (DataFrame.rows (MarketAnalyzer._calculate_metrics raw)).
Proof.
  intros Hpos avg.
  unfold MarketAnalyzer._calculate_metrics. cbn [DataFrame.rows].
  rewrite Forall_map. rewrite Forall_forall in Hpos |- *.
  intros r Hr. destruct (Hpos r Hr) as [Hp Hc].
  cbn [Row.people_per_charger Row.chargers_per_100k Row.coverage_gap
       Row.market_size_score Row.opportunity_score Row.population].
  fold avg.
  assert (HP : 0 < inject_Z (RawRow.population r)) by now apply inject_Z_pos.
  assert (HC : 0 < inject_Z (RawRow.chargers r)) by now apply inject_Z_pos.
  assert (HMge : (RawRow.population r <= series_max_Z (map RawRow.population raw))%Z)
    by (apply series_max_Z_ge, in_map, Hr).
  assert (HM : 0 < inject_Z (series_max_Z (map RawRow.population raw)))
    by (apply inject_Z_pos; lia).
  assert (HPM : inject_Z (RawRow.population r) <=
                inject_Z (series_max_Z (map RawRow.population raw)))
    by now rewrite <- Zle_Qle.
  assert (HSP : 0 < inject_Z (series_sum_Z (map RawRow.population raw))).
  { apply inject_Z_pos.
    apply Z.lt_le_trans with (RawRow.population r); [exact Hp|].
    apply series_sum_Z_ge; [|apply in_map, Hr].
    rewrite Forall_map. apply Forall_forall. intros x Hx. apply (Hpos x Hx). }
  assert (HSC : 0 < inject_Z (series_sum_Z (map RawRow.chargers raw))).
  { apply inject_Z_pos.
    apply Z.lt_le_trans with (RawRow.chargers r); [exact Hc|].
    apply series_sum_Z_ge; [|apply in_map, Hr].
    rewrite Forall_map. apply Forall_forall. intros x Hx. apply (Hpos x Hx). }
  assert (Havg : 0 < avg).
  { unfold avg, MarketAnalyzer.national_avg_density.
    apply Qmult_lt_0_compat; [|reflexivity].
    apply Qlt_shift_div_l; [exact HSP | lra]. }
  assert (HMeq : RawRow.population r = series_max_Z (map RawRow.population raw) ->
                 inject_Z (RawRow.population r) /
                 inject_Z (series_max_Z (map RawRow.population raw)) * 100 == 100).
  { intros <-. field. lra. }
  set (P := inject_Z (RawRow.population r)) in *.
  set (C := inject_Z (RawRow.chargers r)) in *.
  set (M := inject_Z (series_max_Z (map RawRow.population raw))) in *.
  assert (Hppc : 0 < P / C) by (apply Qlt_shift_div_l; [exact HC | lra]).
  assert (Hmss : 0 < P / M * 100).
  { apply Qmult_lt_0_compat; [|reflexivity]. apply Qlt_shift_div_l; [exact HM | lra]. }
  assert (Hcp : 0 < C / P * 100000).
  { apply Qmult_lt_0_compat; [|reflexivity]. apply Qlt_shift_div_l; [exact HP | lra]. }
  assert (Hopp : P / M * 100 / 100 * (1 / (C / P * 100000 / avg)) * 100 ==
                 P / M * 100 * (P / C) * avg / 100000).
  { field. repeat split; lra. }
  split; [exact Hppc|].
  split; [exact Hcp|].
  split; [reflexivity|].
  split; [split; intros H; lra|].
  split; [split; intros H; lra|].
  split; [exact Hmss|].
  split; [assert (H : P / M <= 1) by (apply Qle_shift_div_r; [exact HM | lra]); lra|].
  split; [exact HMeq|].
  rewrite Hopp.
  apply Qlt_shift_div_l; [reflexivity|].
  rewrite Qmult_0_l.
  apply Qmult_lt_0_compat; [apply Qmult_lt_0_compat; [exact Hmss | exact Hppc] | exact Havg].
Qed.

Lemma metrics_ranges_witness :
  Forall (fun r =>
            0 < Row.people_per_charger r /\ 0 < Row.chargers_per_100k r /\
            0 < Row.market_size_score r /\ Row.market_size_score r <= 100 /\
            0 < Row.opportunity_score r)
         (DataFrame.rows (MarketAnalyzer.df MarketAnalyzer.init)).
Proof.
  refine (Forall_impl _ _ (metrics_ranges MarketAnalyzer._create_dataframe _)).
  - intros r (H1 & H2 & _ & _ & _ & H3 & H4 & _ & H5). auto.
  - apply Forall_forall. intros r Hr.
    assert (Hb : forallb (fun r => (0 <? RawRow.population r)%Z && (0 <? RawRow.chargers r)%Z)
                         MarketAnalyzer._create_dataframe = true)
      by (vm_compute; reflexivity).
    rewrite forallb_forall in Hb. specialize (Hb r Hr).
    apply andb_true_iff in Hb. destruct Hb as [Hp Hc].
    split; now apply Z.ltb_lt.
Defined.

(** ** The national average as a weighted average *)

Lemma weighted_density_sum (a : Q) (l : list RawRow.t) :
  Forall (fun r => (0 < RawRow.population r)%Z) l ->
  series_sum_Q
    (map (fun r => inject_Z (RawRow.population r) *
                   (inject_Z (RawRow.chargers r) / inject_Z (RawRow.population r) * 100000 - a))
         l) ==
  100000 * inject_Z (series_sum_Z (map RawRow.chargers l)) -
  a * inject_Z (series_sum_Z (map RawRow.population l)).
Proof.
  induction l as [|r l IH]; intros Hpos.
  - simpl. ring.
  - apply Forall_cons_iff in Hpos. destruct Hpos as [Hp Hl].
    simpl. rewrite (IH Hl), !inject_Z_plus.
    apply inject_Z_pos in Hp. field. lra.
Qed.

Lemma weighted_sum_nonpositive (l : list (Q * Q)) :
  Forall (fun wg => 0 < fst wg /\ snd wg <= 0) l ->
  series_sum_Q (map (fun wg => fst wg * snd wg) l) <= 0.
Proof.
  induction l as [|[w g] l IH]; intros H; simpl; [lra|].
  apply Forall_cons_iff in H. destruct H as [[Hw Hg] Hl]. simpl in Hw, Hg.
  specialize (IH Hl).
  assert (Hwg : w * g <= 0).
  { setoid_replace (w * g) with (- (w * - g)) by ring.
    assert (0 <= w * - g) by (apply Qmult_le_0_compat; lra). lra. }
  lra.
Qed.

Lemma weighted_sum_negative (l : list (Q * Q)) (x : Q * Q) :
  Forall (fun wg => 0 < fst wg /\ snd wg <= 0) l ->
  In x l -> snd x < 0 ->
  series_sum_Q (map (fun wg => fst wg * snd wg) l) < 0.
Proof.
  induction l as [|[w g] l IH]; intros H Hin Hx; [contradiction|].
  apply Forall_cons_iff in H. destruct H as [[Hw Hg] Hl]. simpl in Hw, Hg.
  simpl. destruct Hin as [<- | Hin].
  - simpl in Hx. pose proof (weighted_sum_nonpositive l Hl) as Hrest.
    assert (Hwg : w * g < 0).
    { setoid_replace (w * g) with (- (w * - g)) by ring.
      assert (0 < w * - g) by (apply Qmult_lt_0_compat; lra). lra. }
    lra.
  - specialize (IH Hl Hin Hx).
    assert (Hwg : w * g <= 0).
    { setoid_replace (w * g) with (- (w * - g)) by ring.
      assert (0 <= w * - g) by (apply Qmult_le_0_compat; lra). lra. }
    lra.
Qed.

Lemma weighted_coverage_gaps_sum (raw : list RawRow.t) :
  Forall (fun r => (0 < RawRow.population r)%Z) raw ->
  series_sum_Q
    (map (fun r => inject_Z (Row.population r) * Row.coverage_gap r)
         (DataFrame.rows (MarketAnalyzer._calculate_metrics raw))) == 0.
Proof.
  intros Hpos.
  unfold MarketAnalyzer._calculate_metrics. cbn [DataFrame.rows].
  rewrite map_map. cbn [Row.population Row.coverage_gap].
  rewrite (weighted_density_sum _ raw Hpos).
  unfold MarketAnalyzer.national_avg_density.
  destruct raw as [|r raw]; [simpl; ring|].
  assert (HSP : 0 < inject_Z (series_sum_Z (map RawRow.population (r :: raw)))).
  { apply inject_Z_pos.
    apply Forall_cons_iff in Hpos. destruct Hpos as [Hr Hl].
    apply Z.lt_le_trans with (RawRow.population r); [exact Hr|].
    apply series_sum_Z_ge; [|now left].
    rewrite Forall_map. now constructor. }
  field. lra.
Qed.

Lemma negative_or_some_nonnegative (l : list (Q * Q)) :
  Forall (fun wg => snd wg < 0) l \/ exists x, In x l /\ 0 <= snd x.
Proof.
  induction l as [|x l [IH | [y [Hy Hpos]]]].
  - left. constructor.
  - destruct (Qlt_le_dec (snd x) 0) as [Hlt | Hle].
    + left. now constructor.
    + right. exists x. split; [now left | exact Hle].
  - right. exists y. split; [now right | exact Hpos].
Qed.

Lemma weighted_sum_zero_has_nonnegative (l : list (Q * Q)) :
  l <> [] ->
  Forall (fun wg => 0 < fst wg) l ->
  series_sum_Q (map (fun wg => fst wg * snd wg) l) == 0 ->
  exists x, In x l /\ 0 <= snd x.
Proof.
  intros Hne Hweights Hsum.
  destruct (negative_or_some_nonnegative l) as [Hall | Hex]; [|exact Hex].
  exfalso.
  destruct l as [|x l]; [now apply Hne|].
  assert (Hboth : Forall (fun wg => 0 < fst wg /\ snd wg <= 0) (x :: l)).
  { rewrite Forall_forall in Hall, Hweights |- *. intros y Hy.
    split; [now apply Hweights | apply Qlt_le_weak; now apply Hall]. }
  assert (Hx : snd x < 0) by (rewrite Forall_forall in Hall; apply Hall; now left).
  pose proof (weighted_sum_negative (x :: l) x Hboth (or_introl eq_refl) Hx) as Hlt.
  rewrite Hsum in Hlt. now apply Qlt_irrefl in Hlt.
Qed.

(** X14.  The markets are never all on one side of the national average:
    on a non-empty frame with positive populations some city has a
    coverage gap of at least 0 and some city has one of at most 0, because
    the national average density is the population-weighted average of the
    city densities. *)
Theorem coverage_gaps_on_both_sides (raw : list RawRow.t) :
  raw <> [] ->
  Forall (fun r => (0 < RawRow.population r)%Z) raw ->
  let rows := DataFrame.rows (MarketAnalyzer._calculate_metrics raw) in
  (exists r, In r rows /\ 0 <= Row.coverage_gap r) /\
  (exists r, In r rows /\ Row.coverage_gap r <= 0).
Proof.
  intros Hne Hpos rows.
  pose proof (weighted_coverage_gaps_sum raw Hpos) as Hsum. fold rows in Hsum.
  assert (Hrows : rows <> []).
  { unfold rows, MarketAnalyzer._calculate_metrics. cbn [DataFrame.rows].
    destruct raw; [exfalso; now apply Hne | discriminate]. }
  assert (Hweights : Forall (fun r => 0 < inject_Z (Row.population r)) rows).
  { unfold rows, MarketAnalyzer._calculate_metrics. cbn [DataFrame.rows].
    rewrite Forall_map. cbn [Row.population].
    apply (Forall_impl _ (P := fun r => (0 < RawRow.population r)%Z)); [|exact Hpos].
    intros x Hx. now apply inject_Z_pos. }
  split.
  - set (pairs := map (fun r => (inject_Z (Row.population r), Row.coverage_gap r)) rows).
    destruct (weighted_sum_zero_has_nonnegative pairs) as [x [Hx Hxge]].
    + unfold pairs. destruct rows; [exfalso; now apply Hrows | discriminate].
    + unfold pairs. rewrite Forall_map. exact Hweights.
    + unfold pairs. rewrite map_map. exact Hsum.
    + unfold pairs in Hx. apply in_map_iff in Hx. destruct Hx as [r [<- Hr]].
      exists r. split; [exact Hr | exact Hxge].
  - set (pairs := map (fun r => (inject_Z (Row.population r), - Row.coverage_gap r)) rows).
    destruct (weighted_sum_zero_has_nonnegative pairs) as [x [Hx Hxge]].
    + unfold pairs. destruct rows; [exfalso; now apply Hrows | discriminate].
    + unfold pairs. rewrite Forall_map. exact Hweights.
    + unfold pairs. rewrite map_map. cbn [fst snd].
      clear -Hsum. revert Hsum. generalize rows. intros l.
      assert (Hneg : series_sum_Q
                       (map (fun r => inject_Z (Row.population r) * - Row.coverage_gap r) l) ==
                     - series_sum_Q
                         (map (fun r => inject_Z (Row.population r) * Row.coverage_gap r) l)).
      { induction l as [|r l IH]; simpl; [ring|]. rewrite IH. ring. }
      intros Hsum. rewrite Hneg, Hsum. ring.
    + unfold pairs in Hx. apply in_map_iff in Hx. destruct Hx as [r [<- Hr]].
      exists r. split; [exact Hr|]. cbn [snd] in Hxge. lra.
Qed.

Lemma coverage_gaps_on_both_sides_witness :
  let rows := DataFrame.rows (MarketAnalyzer.df MarketAnalyzer.init) in
  (exists r, In r rows /\ 0 <= Row.coverage_gap r) /\
  (exists r, In r rows /\ Row.coverage_gap r <= 0).
Proof.
  apply (coverage_gaps_on_both_sides MarketAnalyzer._create_dataframe).
  - vm_compute. discriminate.
  - apply Forall_forall. intros r Hr.
    assert (Hb : forallb (fun r => (0 <? RawRow.population r)%Z)
                         MarketAnalyzer._create_dataframe = true)
      by (vm_compute; reflexivity).
    rewrite forallb_forall in Hb. now apply Z.ltb_lt, Hb.
Defined.

(** ** The density rankings *)

Lemma insert_by_ext {A : Type} (leb1 leb2 : A -> A -> bool) (x : A) (l : list A) :
  (forall a b, leb1 a b = leb2 a b) -> insert_by leb1 x l = insert_by leb2 x l.
Proof.
  intros Hext. induction l as [|y l IH]; simpl; [reflexivity|].
  rewrite Hext, IH. reflexivity.
Qed.

Lemma sort_by_ext {A : Type} (leb1 leb2 : A -> A -> bool) (l : list A) :
  (forall a b, leb1 a b = leb2 a b) -> sort_by leb1 l = sort_by leb2 l.
Proof.
  intros Hext. induction l as [|x l IH]; simpl; [reflexivity|].
  rewrite IH. now apply insert_by_ext.
Qed.

Lemma Qle_bool_opp (x y : Q) : Qle_bool x y = Qle_bool (- y) (- x).
Proof.
  apply eq_true_iff_eq. rewrite !Qle_bool_iff. split; intros H; lra.
Qed.

(** Taking the smallest of a column is taking the largest of its negation. *)
Lemma nsmallest_as_nlargest {A : Type} (n : Z) (key : A -> Q) (l : list A) :
  nsmallest n key l = nlargest n (fun a => - key a) l.
Proof.
  unfold nsmallest, nlargest. destruct (n <=? 0)%Z; [reflexivity|].
  f_equal. apply sort_by_ext. intros a b. apply Qle_bool_opp.
Qed.

(** X15.  On a frame with the default index, get_oversaturated_markets
    returns rows in non-increasing order of chargers_per_100k and
    get_underserved_markets in non-decreasing order, in both cases with
    rows of equal density in dataset order; each returns
    min(n, dataset size) rows. *)
Theorem density_rankings_sorted_stable (self : MarketAnalyzer.t) (n : Z) :
  let rows := DataFrame.rows (MarketAnalyzer.df self) in
  map Row.label rows = seq 0 (List.length rows) ->
  let over := fst (MarketAnalyzer.get_oversaturated_markets n self) in
  let under := fst (MarketAnalyzer.get_underserved_markets n self) in
  StronglySorted
    (fun a b => DensityRow.chargers_per_100k b <= DensityRow.chargers_per_100k a) over /\
  StronglySorted
    (fun a b => DensityRow.chargers_per_100k a == DensityRow.chargers_per_100k b ->
                (DensityRow.label a < DensityRow.label b)%nat) over /\
  List.length over = Nat.min (Z.to_nat n) (List.length rows) /\
  StronglySorted
    (fun a b => OpportunityRow.chargers_per_100k a <= OpportunityRow.chargers_per_100k b)
    under /\
  StronglySorted
    (fun a b => OpportunityRow.chargers_per_100k a == OpportunityRow.chargers_per_100k b ->
                (OpportunityRow.label a < OpportunityRow.label b)%nat) under /\
  List.length under = Nat.min (Z.to_nat n) (List.length rows).
Proof.
  intros rows Hindex over under.
  assert (Hlab : StronglySorted lt (map Row.label rows))
    by (rewrite Hindex; apply seq_StronglySorted).
  assert (Hover : StronglySorted (before DensityRow.chargers_per_100k DensityRow.label) over).
  { unfold over. simpl.
    apply (StronglySorted_map _ (before Row.chargers_per_100k Row.label)).
    - intros a b Hab. exact Hab.
    - now apply nlargest_sorted. }
  assert (Hunder : StronglySorted
                     (before (fun r => - OpportunityRow.chargers_per_100k r)
                             OpportunityRow.label) under).
  { unfold under. simpl. rewrite nsmallest_as_nlargest.
    apply (StronglySorted_map _ (before (fun r => - Row.chargers_per_100k r) Row.label)).
    - intros a b Hab. exact Hab.
    - now apply nlargest_sorted. }
  split; [|split; [|split; [|split; [|split]]]].
  - apply (StronglySorted_weaken _ _ _ (before_key_le _ _) Hover).
  - apply (StronglySorted_weaken (before DensityRow.chargers_per_100k DensityRow.label));
      [|exact Hover].
    intros a b [Hlt | [_ Hl]] Heq; [|exact Hl].
    rewrite Heq in Hlt. now apply Qlt_irrefl in Hlt.
  - unfold over. simpl. rewrite length_map. apply nlargest_length.
  - apply (StronglySorted_weaken
             (before (fun r => - OpportunityRow.chargers_per_100k r) OpportunityRow.label));
      [|exact Hunder].
    intros a b Hab. apply before_key_le in Hab. lra.
  - apply (StronglySorted_weaken
             (before (fun r => - OpportunityRow.chargers_per_100k r) OpportunityRow.label));
      [|exact Hunder].
    intros a b [Hlt | [_ Hl]] Heq; [|exact Hl].
    rewrite Heq in Hlt. now apply Qlt_irrefl in Hlt.
  - unfold under. simpl. rewrite length_map, nsmallest_as_nlargest. apply nlargest_length.
Qed.

Lemma density_rankings_sorted_stable_witness :
  StronglySorted
    (fun a b => DensityRow.chargers_per_100k b <= DensityRow.chargers_per_100k a)
    (fst (MarketAnalyzer.get_oversaturated_markets 5 MarketAnalyzer.init)) /\
  StronglySorted
    (fun a b => OpportunityRow.chargers_per_100k a <= OpportunityRow.chargers_per_100k b)
    (fst (MarketAnalyzer.get_underserved_markets 5 MarketAnalyzer.init)).
Proof.
  destruct (density_rankings_sorted_stable MarketAnalyzer.init 5)
    as (H1 & _ & _ & H4 & _ & _).
  - vm_compute. reflexivity.
  - split; [exact H1 | exact H4].
Defined.

Lemma firstn_all_le {A : Type} (n : nat) (l : list A) :
  (List.length l <= n)%nat -> firstn n l = l.
Proof.
  revert n. induction l as [|x l IH]; intros [|n] Hle; simpl in *; try reflexivity; try lia.
  f_equal. apply IH. lia.
Qed.

(** X16.  The bounds of the ranking queries: with n <= 0 the three queries
    return no row, and with n at least the dataset size (and positive) each
    returns every row of the dataset exactly once. *)
Theorem ranking_queries_bounds (self : MarketAnalyzer.t) (n : Z) :
  let rows := DataFrame.rows (MarketAnalyzer.df self) in
  ((n <= 0)%Z ->
   fst (MarketAnalyzer.get_top_opportunities n self) = [] /\
   fst (MarketAnalyzer.get_oversaturated_markets n self) = [] /\
   fst (MarketAnalyzer.get_underserved_markets n self) = []) /\
  ((0 < n)%Z -> (Z.of_nat (List.length rows) <= n)%Z ->
   Permutation (fst (MarketAnalyzer.get_top_opportunities n self))
               (map MarketAnalyzer.opportunity_columns rows) /\
   Permutation (fst (MarketAnalyzer.get_oversaturated_markets n self))
               (map MarketAnalyzer.density_columns rows) /\
   Permutation (fst (MarketAnalyzer.get_underserved_markets n self))
               (map MarketAnalyzer.opportunity_columns rows)).
Proof.
  intros rows. split.
  - intros Hn. apply Z.leb_le in Hn.
    unfold MarketAnalyzer.get_top_opportunities, MarketAnalyzer.get_oversaturated_markets,
      MarketAnalyzer.get_underserved_markets, sbind, sget, sret, nlargest, nsmallest.
    simpl. rewrite Hn. auto.
  - intros Hpos Hsize.
    assert (Hn : (n <=? 0)%Z = false) by (apply Z.leb_gt; lia).
    unfold MarketAnalyzer.get_top_opportunities, MarketAnalyzer.get_oversaturated_markets,
      MarketAnalyzer.get_underserved_markets, sbind, sget, sret, nlargest, nsmallest.
    simpl. fold rows. rewrite Hn.
    rewrite !firstn_all_le by (rewrite sort_by_length; fold rows; lia).
    repeat split; apply Permutation_map, sort_by_perm.
Qed.

Lemma ranking_queries_bounds_witness :
  fst (MarketAnalyzer.get_top_opportunities 0 MarketAnalyzer.init) = [] /\
  Permutation (fst (MarketAnalyzer.get_top_opportunities 100 MarketAnalyzer.init))
              (map MarketAnalyzer.opportunity_columns
                   (DataFrame.rows (MarketAnalyzer.df MarketAnalyzer.init))).
Proof.
  split.
  - apply (proj1 (ranking_queries_bounds MarketAnalyzer.init 0)). lia.
  - apply (proj2 (ranking_queries_bounds MarketAnalyzer.init 100)).
    + lia.
    + vm_compute. intros H. discriminate H.
Defined.

(** ** Regional aggregation *)

Lemma series_sum_Z_perm (l l' : list Z) :
  Permutation l l' -> series_sum_Z l = series_sum_Z l'.
Proof.
  intros H. induction H; simpl; lia.
Qed.

Lemma series_sum_Z_add {A : Type} (a b : A -> Z) (K : list A) :
  series_sum_Z (map (fun k => a k + b k)%Z K) =
    (series_sum_Z (map a K) + series_sum_Z (map b K))%Z.
Proof.
  induction K as [|k K IH]; simpl; [reflexivity|]. rewrite IH. lia.
Qed.

Lemma series_sum_Z_zero {A : Type} (K : list A) :
  series_sum_Z (map (fun _ => 0%Z) K) = 0%Z.
Proof. induction K as [|k K IH]; simpl; [reflexivity | exact IH]. Qed.

Lemma sum_indicator_absent (k0 : string) (c : Z) (K : list string) :
  ~ In k0 K ->
  series_sum_Z (map (fun k => if String.eqb k0 k then c else 0%Z) K) = 0%Z.
Proof.
  induction K as [|k K IH]; intros Hnin; simpl; [reflexivity|].
  destruct (String.eqb_spec k0 k) as [-> | Hne].
  - exfalso. apply Hnin. now left.
  - rewrite IH; [reflexivity|]. intros Hin. apply Hnin. now right.
Qed.

Lemma sum_indicator_present (k0 : string) (c : Z) (K : list string) :
  NoDup K -> In k0 K ->
  series_sum_Z (map (fun k => if String.eqb k0 k then c else 0%Z) K) = c.
Proof.
  induction K as [|k K IH]; intros Hnd Hin; [contradiction|].
  apply NoDup_cons_iff in Hnd. destruct Hnd as [Hk Hnd]. simpl.
  destruct (String.eqb_spec k0 k) as [-> | Hne].
  - rewrite sum_indicator_absent by exact Hk. lia.
  - destruct Hin as [Heq | Hin]; [congruence|].
    rewrite (IH Hnd Hin). lia.
Qed.

(** Summing a column group by group, over distinct keys that cover the
    frame, is summing the column. *)
Lemma grouped_sum {R : Type} (f : R -> Z) (K : list string) (keyed : list (string * R)) :
  NoDup K ->
  (forall kr, In kr keyed -> In (fst kr) K) ->
  series_sum_Z
    (map (fun k =>
            series_sum_Z
              (map f (map snd (filter (fun kr => String.eqb (fst kr) k) keyed))))
         K) =
  series_sum_Z (map (fun kr => f (snd kr)) keyed).
Proof.
  intros Hnd. induction keyed as [|[k0 r0] keyed IH]; intros Hcover.
  - simpl. apply series_sum_Z_zero.
  - rewrite (map_ext _
               (fun k =>
                  (if String.eqb k0 k then f r0 else 0) +
                  series_sum_Z
                    (map f (map snd (filter (fun kr => String.eqb (fst kr) k) keyed))))%Z).
    + rewrite series_sum_Z_add, IH.
      * rewrite sum_indicator_present; [reflexivity | exact Hnd |].
        apply (Hcover (k0, r0)). now left.
      * intros kr Hin. apply Hcover. now right.
    + intros k. simpl. destruct (String.eqb k0 k); reflexivity.
Qed.

Lemma sum_ones {A : Type} (l : list A) :
  series_sum_Z (map (fun _ => 1%Z) l) = Z.of_nat (List.length l).
Proof.
  induction l as [|a l IH]; [reflexivity|].
  change (series_sum_Z (map (fun _ => 1%Z) (a :: l)))
    with (1 + series_sum_Z (map (fun _ : A => 1%Z) l))%Z.
  change (List.length (a :: l)) with (S (List.length l)).
  rewrite IH, Nat2Z.inj_succ. lia.
Qed.

Lemma combine_map_l {A B : Type} (g : A -> B) (l : list A) :
  combine (map g l) l = map (fun a => (g a, a)) l.
Proof. induction l as [|a l IH]; simpl; [reflexivity | now rewrite IH]. Qed.

Lemma insert_desc_sorted_by_key {A : Type} (key : A -> Q) (x : A) (l : list A) :
  StronglySorted (fun a b => key b <= key a) l ->
  StronglySorted (fun a b => key b <= key a)
                 (insert_by (fun a b => Qle_bool (key b) (key a)) x l).
Proof.
  intros Hs. induction Hs as [|y l Hs IH Hy]; simpl.
  - repeat constructor.
  - destruct (Qle_bool (key y) (key x)) eqn:Hle.
    + apply Qle_bool_iff in Hle.
      constructor; [now constructor|].
      constructor; [exact Hle|].
      apply (Forall_impl _ (P := fun z => key z <= key y)); [|exact Hy].
      intros z Hz. now apply Qle_trans with (key y).
    + constructor; [exact IH|].
      apply Forall_insert_by; [|exact Hy].
      apply Qlt_le_weak, Qnot_le_lt. intros Hc.
      apply Qle_bool_iff in Hc. congruence.
Qed.

Lemma sort_values_desc_sorted {A : Type} (key : A -> Q) (l : list A) :
  StronglySorted (fun a b => key b <= key a) (sort_values_desc key l).
Proof.
  unfold sort_values_desc. induction l as [|x l IH]; simpl.
  - constructor.
  - now apply insert_desc_sorted_by_key.
Qed.

(** X17.  Regional aggregation counts every city in exactly one region:
    over the rows it returns, the populations sum to the dataset's total
    population, the chargers to its total chargers and the city counts to
    the number of rows.  The rows come in non-increasing order of
    chargers_per_100k, no region appears twice, and every region returned
    is the region of some city's state. *)
Theorem regional_analysis_partitions_dataset (self : MarketAnalyzer.t) :
  let rows := DataFrame.rows (MarketAnalyzer.df self) in
  let regional := fst (MarketAnalyzer.get_regional_analysis self) in
  series_sum_Z (map RegionalRow.population regional) =
    series_sum_Z (map Row.population rows) /\
  series_sum_Z (map RegionalRow.chargers regional) =
    series_sum_Z (map Row.chargers rows) /\
  series_sum_Z (map (fun x => Z.of_nat (RegionalRow.cities x)) regional) =
    Z.of_nat (List.length rows) /\
  StronglySorted
    (fun a b => RegionalRow.chargers_per_100k b <= RegionalRow.chargers_per_100k a)
    regional /\
  NoDup (map RegionalRow.region regional) /\
  Forall (fun x => exists r, In r rows /\
                             RegionalRow.region x = MarketAnalyzer.get_region (Row.state r))
         regional.
Proof.
  intros rows regional.
  set (region := map (fun r => MarketAnalyzer.get_region (Row.state r)) rows).
  set (keyed := combine region rows).
  set (K := MarketAnalyzer.group_keys region).
  assert (Hreg : regional =
                 sort_values_desc RegionalRow.chargers_per_100k
                   (map (MarketAnalyzer.aggregate_region keyed) K)) by reflexivity.
  assert (Hperm : Permutation regional (map (MarketAnalyzer.aggregate_region keyed) K))
    by (rewrite Hreg; apply sort_by_perm).
  assert (HKperm : Permutation K (nodup string_dec region))
    by apply sort_by_perm.
  assert (HK : NoDup K).
  { apply (Permutation_NoDup (Permutation_sym HKperm)), NoDup_nodup. }
  assert (Hkeyed : keyed = map (fun r => (MarketAnalyzer.get_region (Row.state r), r)) rows)
    by apply combine_map_l.
  assert (Hcover : forall kr, In kr keyed -> In (fst kr) K).
  { intros kr Hin. apply (Permutation_in _ (Permutation_sym HKperm)), nodup_In.
    rewrite Hkeyed in Hin. apply in_map_iff in Hin. destruct Hin as [r [<- Hr]].
    simpl. unfold region.
    apply (in_map (fun r => MarketAnalyzer.get_region (Row.state r))), Hr. }
  assert (Hsnd : forall f : Row.t -> Z,
             series_sum_Z (map (fun kr => f (snd kr)) keyed) = series_sum_Z (map f rows)).
  { intros f. rewrite Hkeyed, map_map. reflexivity. }
  split; [|split; [|split; [|split; [|split]]]].
  - rewrite (series_sum_Z_perm _ _ (Permutation_map RegionalRow.population Hperm)).
    rewrite map_map. cbn [MarketAnalyzer.aggregate_region RegionalRow.population].
    rewrite (grouped_sum Row.population K keyed HK Hcover). apply Hsnd.
  - rewrite (series_sum_Z_perm _ _ (Permutation_map RegionalRow.chargers Hperm)).
    rewrite map_map. cbn [MarketAnalyzer.aggregate_region RegionalRow.chargers].
    rewrite (grouped_sum Row.chargers K keyed HK Hcover). apply Hsnd.
  - rewrite (series_sum_Z_perm _ _
               (Permutation_map (fun x => Z.of_nat (RegionalRow.cities x)) Hperm)).
    rewrite map_map. cbn [MarketAnalyzer.aggregate_region RegionalRow.cities].
    rewrite (map_ext _
               (fun k =>
                  series_sum_Z
                    (map (fun _ : Row.t => 1%Z)
                         (map snd (filter (fun kr => String.eqb (fst kr) k) keyed))))).
    + rewrite (grouped_sum (fun _ => 1%Z) K keyed HK Hcover).
      rewrite sum_ones, Hkeyed, length_map. reflexivity.
    + intros k. rewrite sum_ones. reflexivity.
  - rewrite Hreg. apply sort_values_desc_sorted.
  - apply (Permutation_NoDup (Permutation_sym (Permutation_map RegionalRow.region Hperm))).
    rewrite map_map. cbn [MarketAnalyzer.aggregate_region RegionalRow.region].
    rewrite map_id. exact HK.
  - apply (Permutation_Forall (Permutation_sym Hperm)).
    rewrite Forall_map. apply Forall_forall. intros k Hk.
    cbn [MarketAnalyzer.aggregate_region RegionalRow.region].
    apply (Permutation_in _ HKperm), nodup_In in Hk.
    unfold region in Hk. apply in_map_iff in Hk. destruct Hk as [r [<- Hr]].
    exists r. split; [exact Hr | reflexivity].
Qed.

(** ** Classification against the national statistics *)

Local Open Scope string_scope.

Lemma classify_gap_cases (gap : Q) :
  (gap < -0.5 /\ MarketAnalyzer.classify_gap gap = "Underserved (High Opportunity)") \/
  (0.5 < gap /\ MarketAnalyzer.classify_gap gap = "Oversaturated") \/
  (-0.5 <= gap /\ gap <= 0.5 /\ MarketAnalyzer.classify_gap gap = "Balanced").
Proof.
  unfold MarketAnalyzer.classify_gap.
  destruct (Qltb gap (-0.5)) eqn:Hlow.
  - left. split; [now apply Qltb_true | reflexivity].
  - destruct (Qgtb gap 0.5) eqn:Hhigh.
    + right. left. split; [now apply Qgtb_true | reflexivity].
    + right. right.
      split; [now apply Qltb_false | split; [now apply Qgtb_false | reflexivity]].
Qed.

(** X18.  The classification and the national statistics agree on any
    dataset with positive populations: get_national_stats reports the average density the coverage
    gaps were computed from, so a market found in the dataset is
    "Underserved (High Opportunity)" exactly when its chargers_per_100k is
    more than 0.5 below avg_chargers_per_100k, "Oversaturated" exactly when
    it is more than 0.5 above, and "Balanced" exactly when it is within 0.5
    of it.  The statistics also count every row once. *)
Theorem classification_agrees_with_national_stats
    (raw : list RawRow.t) (city state : string) :
  Forall (fun r => (0 < RawRow.population r)%Z) raw ->
  let self := {| MarketAnalyzer.df := MarketAnalyzer._calculate_metrics raw |} in
  let stats := fst (MarketAnalyzer.get_national_stats self) in
  let avg := NationalStats.avg_chargers_per_100k stats in
  let band := fst (MarketAnalyzer.classify_market city state self) in
  NationalStats.cities_analyzed stats = List.length raw /\
  NationalStats.total_population stats = series_sum_Z (map RawRow.population raw) /\
  NationalStats.total_chargers stats = series_sum_Z (map RawRow.chargers raw) /\
  match MarketAnalyzer.market_of city state (DataFrame.rows (MarketAnalyzer.df self)) with
  | [] => band = "Unknown"
  | first :: _ =>
      (band = "Underserved (High Opportunity)" <->
       Row.chargers_per_100k first < avg - 0.5) /\
      (band = "Oversaturated" <-> avg + 0.5 < Row.chargers_per_100k first) /\
      (band = "Balanced" <->
       avg - 0.5 <= Row.chargers_per_100k first /\ Row.chargers_per_100k first <= avg + 0.5)
  end.
Proof.
  intros _ self stats avg band.
  assert (Hpop : map Row.population (DataFrame.rows (MarketAnalyzer.df self)) =
                 map RawRow.population raw).
  { unfold self, MarketAnalyzer._calculate_metrics. cbn [MarketAnalyzer.df DataFrame.rows].
    rewrite map_map. reflexivity. }
  assert (Hch : map Row.chargers (DataFrame.rows (MarketAnalyzer.df self)) =
                map RawRow.chargers raw).
  { unfold self, MarketAnalyzer._calculate_metrics. cbn [MarketAnalyzer.df DataFrame.rows].
    rewrite map_map. reflexivity. }
  assert (Havg : avg = MarketAnalyzer.national_avg_density
                         (map RawRow.population raw) (map RawRow.chargers raw)).
  { unfold avg, stats, MarketAnalyzer.get_national_stats, sbind, sget, sret.
    cbn [fst NationalStats.avg_chargers_per_100k]. now rewrite Hpop, Hch. }
  split; [|split; [|split]].
  - unfold stats, self, MarketAnalyzer.get_national_stats, sbind, sget, sret,
      MarketAnalyzer._calculate_metrics.
    cbn [fst NationalStats.cities_analyzed MarketAnalyzer.df DataFrame.rows].
    apply length_map.
  - unfold stats, MarketAnalyzer.get_national_stats, sbind, sget, sret.
    cbn [fst NationalStats.total_population]. now rewrite Hpop.
  - unfold stats, MarketAnalyzer.get_national_stats, sbind, sget, sret.
    cbn [fst NationalStats.total_chargers]. now rewrite Hch.
  - unfold band, MarketAnalyzer.classify_market, sbind, sget, sret. cbn [fst].
    destruct (MarketAnalyzer.market_of city state (DataFrame.rows (MarketAnalyzer.df self)))
      as [|first rest] eqn:Hmarket; [reflexivity|].
    assert (Hin : In first (DataFrame.rows (MarketAnalyzer.df self))).
    { assert (H : In first (first :: rest)) by now left.
      rewrite <- Hmarket in H. unfold MarketAnalyzer.market_of in H.
      apply filter_In in H. apply H. }
    assert (Hgap : Row.coverage_gap first = Row.chargers_per_100k first - avg).
    { rewrite Havg. unfold self, MarketAnalyzer._calculate_metrics in Hin.
      cbn [MarketAnalyzer.df DataFrame.rows] in Hin.
      apply in_map_iff in Hin. destruct Hin as [r [<- _]]. reflexivity. }
    destruct (classify_gap_cases (Row.coverage_gap first))
      as [[Hlow ->] | [[Hhigh ->] | (Hlo & Hhi & ->)]];
      rewrite Hgap in *;
      (split; [|split]); split; intros H;
        try discriminate H; try reflexivity; try lra.
Qed.

Lemma classification_agrees_with_national_stats_witness :
  let stats := fst (MarketAnalyzer.get_national_stats MarketAnalyzer.init) in
  let avg := NationalStats.avg_chargers_per_100k stats in
  let band := fst (MarketAnalyzer.classify_market "Seattle" "WA" MarketAnalyzer.init) in
  NationalStats.cities_analyzed stats = List.length MarketAnalyzer._create_dataframe /\
  NationalStats.total_population stats =
    series_sum_Z (map RawRow.population MarketAnalyzer._create_dataframe) /\
  NationalStats.total_chargers stats =
    series_sum_Z (map RawRow.chargers MarketAnalyzer._create_dataframe) /\
  match MarketAnalyzer.market_of "Seattle" "WA"
          (DataFrame.rows (MarketAnalyzer.df MarketAnalyzer.init)) with
  | [] => band = "Unknown"
  | first :: _ =>
      (band = "Underserved (High Opportunity)" <->
       Row.chargers_per_100k first < avg - 0.5) /\
      (band = "Oversaturated" <-> avg + 0.5 < Row.chargers_per_100k first) /\
      (band = "Balanced" <->
       avg - 0.5 <= Row.chargers_per_100k first /\ Row.chargers_per_100k first <= avg + 0.5)
  end.
Proof.
  apply (classification_agrees_with_national_stats
           MarketAnalyzer._create_dataframe "Seattle" "WA").
  apply Forall_forall. intros r Hr.
  assert (Hb : forallb (fun r => (0 <? RawRow.population r)%Z)
                       MarketAnalyzer._create_dataframe = true)
    by (vm_compute; reflexivity).
  rewrite forallb_forall in Hb. now apply Z.ltb_lt, Hb.
Defined.

(** ** The state-to-region table *)

Lemma get_region_in_unlisted (items : list (string * list string)) (state : string) :
  (forall region states, In (region, states) items -> ~ In state states) ->
  MarketAnalyzer.get_region_in items state = "Other".
Proof.
  induction items as [|[region states] items IH]; intros Hnot; simpl; [reflexivity|].
  destruct (existsb (String.eqb state) states) eqn:Hex.
  - exfalso. apply existsb_exists in Hex. destruct Hex as [s [Hin Heq]].
    apply String.eqb_eq in Heq. subst s.
    apply (Hnot region states); [now left | exact Hin].
  - apply IH. intros r ss Hin. apply (Hnot r ss). now right.
Qed.

Lemma get_region_in_listed (items : list (string * list string))
    (region : string) (states : list string) (state : string) :
  NoDup (List.concat (map snd items)) ->
  In (region, states) items -> In state states ->
  MarketAnalyzer.get_region_in items state = region.
Proof.
  induction items as [|[r ss] items IH]; intros Hnd Hin Hstate; [contradiction|].
  simpl in Hnd. apply NoDup_app_remove_l in Hnd as Hnd'.
  simpl. destruct (existsb (String.eqb state) ss) eqn:Hex.
  - destruct Hin as [Heq | Hin]; [congruence|].
    exfalso. apply existsb_exists in Hex. destruct Hex as [s [Hs Heq]].
    apply String.eqb_eq in Heq. subst s.
    assert (Hrest : In state (List.concat (map snd items))).
    { apply List.in_concat. exists states. split; [|exact Hstate].
      apply (in_map snd items (region, states)), Hin. }
    clear -Hnd Hs Hrest.
    induction ss as [|x ss IH]; [contradiction|].
    simpl in Hnd. apply NoDup_cons_iff in Hnd. destruct Hnd as [Hx Hnd].
    destruct Hs as [-> | Hs].
    + apply Hx. apply in_or_app. now right.
    + now apply IH.
  - destruct Hin as [Heq | Hin].
    + injection Heq as -> ->. exfalso.
      assert (Htrue : existsb (String.eqb state) states = true).
      { apply existsb_exists. exists state. split; [exact Hstate | apply String.eqb_refl]. }
      congruence.
    + now apply IH.
Qed.

(** X19.  The region lookup follows its table without shadowing: a state
    listed under a region gets that region (no state is listed twice), and
    a state listed under no region gets "Other". *)
Theorem get_region_follows_table (state : string) :
  (forall region states,
     In (region, states) MarketAnalyzer.regions -> In state states ->
     MarketAnalyzer.get_region state = region) /\
  ((forall region states,
      In (region, states) MarketAnalyzer.regions -> ~ In state states) ->
   MarketAnalyzer.get_region state = "Other").
Proof.
  split.
  - intros region states Hin Hstate.
    apply (get_region_in_listed MarketAnalyzer.regions region states state); try assumption.
    assert (Hnd : nodup string_dec (List.concat (map snd MarketAnalyzer.regions)) =
                  List.concat (map snd MarketAnalyzer.regions))
      by (vm_compute; reflexivity).
    rewrite <- Hnd. apply NoDup_nodup.
  - apply get_region_in_unlisted.
Qed.

Lemma get_region_follows_table_witness :
  MarketAnalyzer.get_region "TX" = "Southwest" /\
  MarketAnalyzer.get_region "VA" = "Other".
Proof.
  split.
  - apply (proj1 (get_region_follows_table "TX") "Southwest" ["TX"; "AZ"; "NM"; "OK"; "AR"]).
    + vm_compute. tauto.
    + now left.
  - apply (proj2 (get_region_follows_table "VA")).
    intros region states Hin Hstate.
    vm_compute in Hin.
    repeat (destruct Hin as [Hin | Hin];
            [injection Hin as <- <-;
             vm_compute in Hstate;
             repeat (destruct Hstate as [Hstate | Hstate]; [discriminate Hstate|]);
             exact Hstate|]).
    exact Hin.
Defined.
